(** * PurpleAir particulate-matter tracking system

    A shallow embedding of [purple_air_system.py] (class [DataSet] and the
    helpers it relies on) together with the properties of its in-memory
    dataset, the cross-table statistics and the zip-code filter.

    Conventions of the embedding:
    - a Python [float] is an IEEE-754 binary64 number: Rocq's primitive
      [float], whose operations are the hardware ones;
    - a Python [str] is a [string]; [len] is [String.length] and [==] is
      [String.eqb] (one character per code point);
    - a Python [dict] with [str] keys is an association list in insertion
      order, updated in place when the key is already present;
    - a method of [DataSet] is a computation in the monad [M], which threads
      the object ([self]) and the text printed so far ([stdout]) and either
      returns a value or raises an exception. *)

From Stdlib Require Import List String Ascii Bool Arith ZArith Lia Permutation.
From Stdlib Require Import DecimalString DecimalPos DecimalN Uint63 Floats.
Import ListNotations.

Local Open Scope list_scope.
Local Open Scope string_scope.

Set Implicit Arguments.

(** ** Python values used by the program *)

(** Exceptions the program defines or can meet.  [EmptyDatasetError] and
    [NoMatchingItems] are the two classes of the module; the others are
    built-in. *)
Inductive exn : Type :=
| EmptyDatasetError
| NoMatchingItems
| ValueError
| LookupError
| KeyError
| TypeError.

Definition exn_eqb (a b : exn) : bool :=
  match a, b with
  | EmptyDatasetError, EmptyDatasetError
  | NoMatchingItems, NoMatchingItems
  | ValueError, ValueError
  | LookupError, LookupError
  | KeyError, KeyError
  | TypeError, TypeError => true
  | _, _ => false
  end.

(** [class Stats(Enum)]: MIN = 0, AVG = 1, MAX = 2. *)
Inductive Stats : Type := MIN | AVG | MAX.

Definition value (s : Stats) : nat :=
  match s with MIN => 0 | AVG => 1 | MAX => 2 end.

(** The line terminator written by [print]. *)
Definition nl : string := String (ascii_of_nat 10) EmptyString.

(** ** Insertion-ordered dictionaries with string keys *)

Module PyDict.
Section Dict.
Variable V : Type.

Definition dict : Type := list (string * V).

(** [d.get(k)]: the value stored under [k], if any. *)
Fixpoint get (d : dict) (k : string) : option V :=
  match d with
  | [] => None
  | (k', v) :: r => if String.eqb k' k then Some v else get r k
  end.

(** [k in d]. *)
Definition contains (d : dict) (k : string) : bool :=
  match get d k with Some _ => true | None => false end.

(** [d[k] = v]: an existing key keeps its position, a new key goes last. *)
Fixpoint set (d : dict) (k : string) (v : V) : dict :=
  match d with
  | [] => [(k, v)]
  | (k', v') :: r =>
      if String.eqb k' k then (k', v) :: r else (k', v') :: set r k v
  end.

(** Iterating over a dict yields its keys in insertion order. *)
Definition keys (d : dict) : list string := map fst d.

(** [d.items()]. *)
Definition items (d : dict) : list (string * V) := d.

(** [{k: v for k in ks}], built by successive insertions. *)
Definition from_keys (ks : list string) (v : V) : dict :=
  fold_left (fun acc k => set acc k v) ks [].

(** [{k: v for (k, v) in kvs}], built by successive insertions. *)
Definition from_items (kvs : list (string * V)) : dict :=
  fold_left (fun acc kv => set acc (fst kv) (snd kv)) kvs [].
End Dict.
End PyDict.

(** ** Built-in reductions over lists of floats *)

(** The loop of [min(iterable)] once the first item has been taken: the
    running item is replaced when a later one is strictly smaller. *)
Fixpoint min_loop (minitem : float) (rest : list float) : float :=
  match rest with
  | [] => minitem
  | item :: r =>
      if (item <? minitem)%float then min_loop item r else min_loop minitem r
  end.

(** The loop of [max(iterable)]: replaced when a later item is strictly
    greater ([item > maxitem], that is [maxitem < item]). *)
Fixpoint max_loop (maxitem : float) (rest : list float) : float :=
  match rest with
  | [] => maxitem
  | item :: r =>
      if (maxitem <? item)%float then max_loop item r else max_loop maxitem r
  end.

(** [sum(xs)]: additions from the left, starting at 0, each rounded to the
    nearest float (the loop of CPython up to 3.11; later versions carry a
    correction term for the rounding errors along, which can change the last
    digit of a sum; on the list used as an example below both give the same
    float). *)
Definition py_sum (xs : list float) : float :=
  fold_left (fun acc x => (acc + x)%float) xs 0%float.

(** The float of a list length (a length is always below 2^63). *)
Definition float_of_len (n : nat) : float :=
  PrimFloat.of_uint63 (Uint63.of_Z (Z.of_nat n)).

(** ** Text formatting *)

Fixpoint spaces (n : nat) : string :=
  match n with
  | O => EmptyString
  | S k => String " "%char (spaces k)
  end.

(** Format spec [" >w"]: right-aligned in a field of [w] characters, filled
    with blanks; a longer text is left as it is. *)
Definition rjust (w : nat) (s : string) : string :=
  spaces (w - String.length s) ++ s.

(** Format spec ["w"] on a [str]: left-aligned in a field of [w]. *)
Definition ljust (w : nat) (s : string) : string :=
  s ++ spaces (w - String.length s).

Definition digit_char (d : Z) : ascii := ascii_of_nat (48 + Z.to_nat d).

Definition string_of_nat (n : nat) : string :=
  NilZero.string_of_uint (Nat.to_uint n).

Definition string_of_Z (z : Z) : string :=
  NilZero.string_of_uint (N.to_uint (Z.to_N z)).

(** The integer nearest to [n / d] ([d] positive), ties to the even one. *)
Definition div_half_even (n d : Z) : Z :=
  let q := (n / d)%Z in
  let r := (n mod d)%Z in
  match (2 * r ?= d)%Z with
  | Lt => q
  | Gt => (q + 1)%Z
  | Eq => if Z.even q then q else (q + 1)%Z
  end.

(** The number of hundredths nearest to the magnitude [m * 2^e]. *)
Definition hundredths (m : positive) (e : Z) : Z :=
  if (0 <=? e)%Z then (Zpos m * 100 * 2 ^ e)%Z
  else div_half_even (Zpos m * 100) (2 ^ (- e)).

(** A count of hundredths written with two decimals. *)
Definition fixed2 (q : Z) : string :=
  string_of_Z (q / 100)
  ++ "."
  ++ String (digit_char ((q mod 100) / 10))
       (String (digit_char (q mod 10)) EmptyString).

Definition sign_text (s : bool) : string := if s then "-" else "".

(** Format spec [".2f"]: the decimal expansion of the exact binary value,
    correctly rounded to two decimals. *)
Definition format_2f (x : float) : string :=
  match Prim2SF x with
  | S754_nan => "nan"
  | S754_infinity s => sign_text s ++ "inf"
  | S754_zero s => sign_text s ++ "0.00"
  | S754_finite s m e => sign_text s ++ fixed2 (hundredths m e)
  end.

(** ** The object, the console and the method monad *)

(** A row of data: [(zip code, time of day, concentration)]. *)
Definition reading : Type := (string * string * float)%type.

Definition item0 (thing : reading) : string := fst (fst thing).
Definition item1 (thing : reading) : string := snd (fst thing).
Definition item2 (thing : reading) : float := snd thing.

(** The attributes of a [DataSet].  [_data] is [None] until a load; [_times]
    is kept as the sequence in which the container is iterated. *)
Record DataSet : Type := mkDataSet {
  _data : option (list reading);
  _header : string;
  _zips : PyDict.dict bool;
  _times : list string
}.

Definition with_data (d : DataSet) (v : option (list reading)) : DataSet :=
  mkDataSet v (_header d) (_zips d) (_times d).
Definition with_header (d : DataSet) (v : string) : DataSet :=
  mkDataSet (_data d) v (_zips d) (_times d).
Definition with_zips (d : DataSet) (v : PyDict.dict bool) : DataSet :=
  mkDataSet (_data d) (_header d) v (_times d).
Definition with_times (d : DataSet) (v : list string) : DataSet :=
  mkDataSet (_data d) (_header d) (_zips d) v.

(** What a method call can see and change. *)
Record world : Type := mkWorld {
  self : DataSet;
  stdout : string
}.

Inductive outcome (A : Type) : Type :=
| Return (a : A)
| Raise (e : exn).
Arguments Return {A} a.
Arguments Raise {A} e.

Definition M (A : Type) : Type := world -> world * outcome A.

Definition ret {A} (a : A) : M A := fun w => (w, Return a).

Definition bind {A B} (m : M A) (k : A -> M B) : M B :=
  fun w =>
    match m w with
    | (w', Return a) => k a w'
    | (w', Raise e) => (w', Raise e)
    end.

Definition raise {A} (e : exn) : M A := fun w => (w, Raise e).

(** [try: body  except e: handler]; other exceptions go through. *)
Definition try_except {A} (body : M A) (e : exn) (handler : M A) : M A :=
  fun w =>
    match body w with
    | (w', Raise e') => if exn_eqb e' e then handler w' else (w', Raise e')
    | r => r
    end.

Definition get_self : M DataSet := fun w => (w, Return (self w)).

Definition set_self (d : DataSet) : M unit :=
  fun w => (mkWorld d (stdout w), Return tt).

(** [print(s, end=e)]. *)
Definition print (s : string) (e : string) : M unit :=
  fun w => (mkWorld (self w) (stdout w ++ s ++ e), Return tt).

Declare Scope py_scope.
Delimit Scope py_scope with py.
Notation "x <- m ;; k" := (bind m (fun x => k))
  (at level 100, m at next level, right associativity) : py_scope.
Notation "m ;;; k" := (bind m (fun _ => k))
  (at level 100, right associativity) : py_scope.
Local Open Scope py_scope.

(** [for x in xs: body x]. *)
Fixpoint for_each {A} (xs : list A) (body : A -> M unit) : M unit :=
  match xs with
  | [] => ret tt
  | x :: r => body x ;;; for_each r body
  end.

(** [min(xs)] and [max(xs)]; an empty argument is a [ValueError]. *)
Definition py_min (xs : list float) : M float :=
  match xs with
  | [] => raise ValueError
  | x :: r => ret (min_loop x r)
  end.

Definition py_max (xs : list float) : M float :=
  match xs with
  | [] => raise ValueError
  | x :: r => ret (max_loop x r)
  end.

(** [t[i]] on a triple. *)
Definition tuple_index (t : float * float * float) (i : nat) : float :=
  match i with
  | 0 => fst (fst t)
  | 1 => snd (fst t)
  | _ => snd t
  end.

(** [d[k]], a [KeyError] when the key is absent. *)
Definition getitem (d : PyDict.dict bool) (k : string) : M bool :=
  match PyDict.get d k with
  | Some v => ret v
  | None => raise KeyError
  end.

(** Iterating over [self._data]; [None] is not iterable. *)
Definition iter_data (d : DataSet) : M (list reading) :=
  match _data d with
  | Some rows => ret rows
  | None => raise TypeError
  end.

(** Truth value of [self._data]: [None] and the empty list are false. *)
Definition truthy (data : option (list reading)) : bool :=
  match data with
  | None => false
  | Some [] => false
  | Some (_ :: _) => true
  end.

(** ** class DataSet *)

Module DataSetClass.
Section Methods.

(** The sequence in which CPython iterates over [set(l)]: it depends on the
    hashes of the strings and is not fixed by the program. *)
Variable set_iteration : list string -> list string.

(** [DataSet.__init__(self, header='')]. *)
Definition __init__ (header : string) : DataSet :=
  mkDataSet None header [] [].

(** The [header] property. *)
Definition header : M string :=
  d <- get_self ;; ret (_header d).

(** The [header] setter. *)
Definition set_header (header : string) : M unit :=
  let max_header_length := 30 in
  if (String.length header <=? max_header_length)%nat then
    d <- get_self ;; set_self (with_header d header)
  else raise ValueError.

(** [get_zips]: a copy of the zip-code dictionary. *)
Definition get_zips : M (PyDict.dict bool) :=
  d <- get_self ;; ret (_zips d).

(** [toggle_zip]. *)
Definition toggle_zip (target_zip : string) : M unit :=
  d <- get_self ;;
  if negb (PyDict.contains (_zips d) target_zip) then raise LookupError
  else
    v <- getitem (_zips d) target_zip ;;
    set_self (with_zips d (PyDict.set (_zips d) target_zip (negb v))).

(** [_initialize_labels]. *)
Definition _initialize_labels : M unit :=
  d <- get_self ;;
  set_self (with_zips d []) ;;;
  d <- get_self ;;
  data <- iter_data d ;;
  let zip_code := map item0 data in
  let zip_code_dict := PyDict.from_keys zip_code true in
  set_self (with_zips d zip_code_dict) ;;;
  d <- get_self ;;
  data <- iter_data d ;;
  let times_set := map item1 data in
  let time_of_day := set_iteration times_set in
  set_self (with_times d time_of_day).

(** [load_file], given the rows read from the CSV file. *)
Definition load_file (data_list : list reading) : M unit :=
  d <- get_self ;;
  set_self (with_data d (Some data_list)) ;;;
  print (string_of_nat (List.length data_list) ++ " lines loaded") nl ;;;
  _initialize_labels.

(** [_cross_table_statistics]. *)
Definition _cross_table_statistics (descriptor_one descriptor_two : string)
  : M (float * float * float) :=
  d <- get_self ;;
  match _data d with
  | None => raise EmptyDatasetError
  | Some data =>
      let concentration :=
        map item2
          (filter (fun thing => String.eqb (item0 thing) descriptor_one
                                && String.eqb (item1 thing) descriptor_two)
                  data) in
      if (List.length concentration =? 0)%nat then raise NoMatchingItems
      else
        lo <- py_min concentration ;;
        hi <- py_max concentration ;;
        let value_con :=
          (lo,
           (py_sum concentration / float_of_len (List.length concentration))%float,
           hi) in
        ret value_con
  end.

(** One cell of the table: the [try] statement of the inner loop. *)
Definition display_cell (stat : Stats) (zip_code item : string) : M unit :=
  try_except
    (concentrations <- _cross_table_statistics zip_code item ;;
     print (rjust 10 (format_2f (tuple_index concentrations (value stat)))) "")
    NoMatchingItems
    (print (rjust 10 "N/A") "").

(** [display_cross_table]. *)
Definition display_cross_table (stat : Stats) : M unit :=
  d <- get_self ;;
  if negb (truthy (_data d)) then
    print "Please load a dataset first" nl
  else
    print "     " "" ;;;
    d <- get_self ;;
    for_each (_times d)
      (fun time_of_day => print (rjust 10 time_of_day) "") ;;;
    print "" nl ;;;
    d <- get_self ;;
    let filtered_zips :=
      PyDict.from_items
        (filter (fun kv => Bool.eqb (snd kv) true) (PyDict.items (_zips d))) in
    for_each (PyDict.keys filtered_zips)
      (fun zip_code =>
         print (ljust 5 zip_code) "" ;;;
         d <- get_self ;;
         for_each (_times d) (fun item => display_cell stat zip_code item) ;;;
         print "" nl).

End Methods.
End DataSetClass.

(** ** The earlier revision of the class (sample file) *)

Module Sample.
(** [DataSet.__init__] of the earlier revision: the header goes through
    the property setter ([self.header = header]), so a header that the
    setter refuses makes the construction fail.  The object has no header
    before that assignment; the empty string stands for it. *)
Definition __init__ (header : string) : outcome DataSet :=
  let blank := mkWorld (mkDataSet None "" [] []) "" in
  match DataSetClass.set_header header blank with
  | (w, Return _) => Return (with_times (with_zips (self w) []) [])
  | (_, Raise e) => Raise e
  end.
End Sample.

(** ** Sessions: the calls a client can make on a dataset *)

Inductive call : Type :=
| CallSetHeader (header : string)
| CallGetZips
| CallToggleZip (target_zip : string)
| CallLoadFile (data_list : list reading)
| CallStatistics (descriptor_one descriptor_two : string)
| CallDisplay (stat : Stats).

(** The world after a call, whether it returned or raised (a caller that
    catches the exception goes on with the same object). *)
Definition after_call (set_iteration : list string -> list string)
    (c : call) (w : world) : world :=
  match c with
  | CallSetHeader h => fst (DataSetClass.set_header h w)
  | CallGetZips => fst (DataSetClass.get_zips w)
  | CallToggleZip z => fst (DataSetClass.toggle_zip z w)
  | CallLoadFile rows => fst (DataSetClass.load_file set_iteration rows w)
  | CallStatistics z t => fst (DataSetClass._cross_table_statistics z t w)
  | CallDisplay stat => fst (DataSetClass.display_cross_table stat w)
  end.

(** A session: the object is built by [DataSet(header)] and then receives
    the calls one after the other. *)
Definition session (set_iteration : list string -> list string)
    (header : string) (calls : list call) : world :=
  fold_left (fun w c => after_call set_iteration c w) calls
    (mkWorld (DataSetClass.__init__ header) "").

(** The states a dataset can be in. *)
Definition reachable (set_iteration : list string -> list string)
    (d : DataSet) : Prop :=
  exists header calls, self (session set_iteration header calls) = d.

(** A load took place among the calls. *)
Definition loaded_in (calls : list call) : Prop :=
  exists data_list, In (CallLoadFile data_list) calls.

(** ** Vocabulary of the specification *)

(** A reading matches a pair of descriptors when both strings are equal. *)
Definition matches (zip_code time_label : string) (r : reading) : Prop :=
  item0 r = zip_code /\ item1 r = time_label.

Definition matches_dec (zip_code time_label : string) (r : reading)
  : {matches zip_code time_label r} + {~ matches zip_code time_label r}.
Proof.
  unfold matches.
  destruct (string_dec (item0 r) zip_code);
    destruct (string_dec (item1 r) time_label);
    (left; tauto) || (right; tauto).
Defined.

(** The concentrations of exactly the matching readings, in file order. *)
Fixpoint matching_concentrations (zip_code time_label : string)
    (rs : list reading) : list float :=
  match rs with
  | [] => []
  | r :: rest =>
      if matches_dec zip_code time_label r
      then item2 r :: matching_concentrations zip_code time_label rest
      else matching_concentrations zip_code time_label rest
  end.

(** Order on floats, as the comparison [<=] of the machine. *)
Definition fle (x y : float) : Prop := (x <=? y)%float = true.

Definition is_minimum (m : float) (cs : list float) : Prop :=
  In m cs /\ forall c, In c cs -> fle m c.

Definition is_maximum (m : float) (cs : list float) : Prop :=
  In m cs /\ forall c, In c cs -> fle c m.

(** A specification-level float that is a number. *)
Definition sf_not_nan (x : spec_float) : Prop := x <> S754_nan.

(** Sum divided by count. *)
Definition mean (cs : list float) : float :=
  (py_sum cs / float_of_len (List.length cs))%float.

(** The sum of a list of floats: starting from 0, its items are added one
    after the other, in the order of the list, each addition giving the
    nearest float. *)
Inductive sums_to : list float -> float -> Prop :=
| sums_nil : sums_to [] 0%float
| sums_snoc : forall l s c, sums_to l s -> sums_to (l ++ [c]) (s + c)%float.

(** The float that stands for the count [n]: the binary64 number nearest to
    the integer (the integer itself up to 2^53). *)
Definition float_of_count (n : nat) (q : float) : Prop :=
  Prim2SF q = binary_normalize prec emax (Z.of_nat n) 0 false.

(** A concentration the data model admits: not below zero. *)
Definition valid_concentration (c : float) : Prop := fle 0%float c.

(** The strings of [l] without repetition, each at its first occurrence. *)
Fixpoint distinct_from (seen l : list string) : list string :=
  match l with
  | [] => []
  | x :: r =>
      if existsb (String.eqb x) seen then distinct_from seen r
      else x :: distinct_from (x :: seen) r
  end.

Definition distinct (l : list string) : list string := distinct_from [] l.

(** The zip codes that are switched on, in the order of the dictionary. *)
Definition active_zips (d : DataSet) : list string :=
  map fst (filter (fun kv => snd kv) (_zips d)).

(** What [statistics_for] answers on a dataset, whatever was printed. *)
Definition statistics_for (d : DataSet) (zip_code time_label : string)
  : outcome (float * float * float) :=
  snd (DataSetClass._cross_table_statistics zip_code time_label (mkWorld d "")).

Definition select (stat : Stats) (t : float * float * float) : float :=
  match stat, t with
  | MIN, (lo, _, _) => lo
  | AVG, (_, avg, _) => avg
  | MAX, (_, _, hi) => hi
  end.

(** A cross table: column labels, and one row of cells per zip code. *)
Inductive cell : Type :=
| Number (x : float)
| NotAvailable.

Record table : Type := mkTable {
  columns : list string;
  rows : list (string * list cell)
}.

Definition cell_of (d : DataSet) (stat : Stats) (zip_code time_label : string)
  : cell :=
  match statistics_for d zip_code time_label with
  | Return t => Number (select stat t)
  | Raise _ => NotAvailable
  end.

(** The table with the given zip codes as rows. *)
Definition table_with_rows (d : DataSet) (stat : Stats) (zs : list string)
  : table :=
  mkTable (_times d) (map (fun z => (z, map (cell_of d stat z) (_times d))) zs).

Definition table_of (d : DataSet) (stat : Stats) : table :=
  table_with_rows d stat (active_zips d).

(** The rows [display_cross_table] goes through: the keys of the dictionary
    it builds from the items that are switched on. *)
Definition filtered_keys (d : DataSet) : list string :=
  PyDict.keys (PyDict.from_items (filter (fun kv => snd kv) (_zips d))).

Definition render_cell (c : cell) : string :=
  match c with
  | Number x => rjust 10 (format_2f x)
  | NotAvailable => rjust 10 "N/A"
  end.

Definition render_row (r : string * list cell) : string :=
  ljust 5 (fst r) ++ String.concat "" (map render_cell (snd r)) ++ nl.

Definition render_table (t : table) : string :=
  "     " ++ String.concat "" (map (rjust 10) (columns t)) ++ nl
  ++ String.concat "" (map render_row (rows t)).

Definition notice : string := "Please load a dataset first" ++ nl.

(** A text that ends with a point and two decimal digits. *)
Definition is_digit (c : ascii) : Prop := (48 <= nat_of_ascii c <= 57)%nat.

Definition two_decimals (s : string) : Prop :=
  exists p a b,
    s = p ++ "." ++ String a (String b EmptyString)
    /\ is_digit a /\ is_digit b.

(** Concrete data used in the examples below. *)
#[local] Set Warnings "-inexact-float".

Definition default_data : list reading :=
  [("12345", "Morning", 1.1%float); ("94022", "Morning", 2.2%float);
   ("94040", "Morning", 3.0%float); ("94022", "Midday", 1.0%float);
   ("94040", "Morning", 1.0%float); ("94022", "Evening", 3.2%float)].

Definition three_tenths : list reading :=
  [("94022", "Morning", 0.1%float); ("94022", "Morning", 0.1%float);
   ("94022", "Morning", 0.1%float)].

Definition long_header : string := "abcdefghijklmnopqrstuvwxyz01234".

(** A fresh dataset after one load of [data_list]; the labels of the time
    of day are iterated in first-seen order here. *)
Definition loaded (data_list : list reading) : DataSet :=
  self (session distinct "" [CallLoadFile data_list]).

(** ** The console functions around the class

    [manage_filters], [print_menu], [menu] and [main] talk to the user:
    [input(prompt)] writes the prompt and takes the next line the user
    typed.  The lines still to come are threaded next to the world; when
    none is left, [input] raises [EOFError], which nothing here catches. *)

(** Why reading the CSV file can fail, before [load_file] stores anything:
    [open] raises an [OSError] (the file is not there), the csv reader
    refuses the text, a column is missing in a row ([KeyError]), or
    [float] refuses the text of a concentration ([ValueError], or
    [TypeError] for a field that is not there). *)
Inductive read_failure : Type :=
| OpenFailed
| ReaderFailed
| MissingColumn
| NotAFloat.

(** What the file holds when [load_file] reads it: the rows, or nothing
    that can be read. *)
Inductive file_content : Type :=
| Readable (data_list : list reading)
| Unreadable (f : read_failure).

(** How a console function ends: it returns, an exception of the class
    escapes, the input ran out, or reading the file failed. *)
Inductive reply (A : Type) : Type :=
| Done (a : A)
| Uncaught (e : exn)
| EndOfInput
| ReadError (f : read_failure).
Arguments Done {A} a.
Arguments Uncaught {A} e.
Arguments EndOfInput {A}.
Arguments ReadError {A} f.

(** The world, the lines not read yet and the way the function ended. *)
Definition ended (A : Type) : Type := (world * list string * reply A)%type.

(** [print(s, end=e)] as a change of the world. *)
Definition say (s e : string) (w : world) : world := fst (print s e w).

(** [l[i]]: a negative index counts from the end; out of the range
    [-len(l) .. len(l) - 1] it is an [IndexError] ([None]). *)
Definition py_index {A : Type} (l : list A) (i : Z) : option A :=
  let n := Z.of_nat (List.length l) in
  if (0 <=? i)%Z then nth_error l (Z.to_nat i)
  else if (0 <=? n + i)%Z then nth_error l (Z.to_nat (n + i))
  else None.

(** [enumerate(l, start)]. *)
Definition enumerate {A : Type} (l : list A) (start : nat) : list (nat * A) :=
  combine (seq start (List.length l)) l.

Definition select_prompt : string :=
  "Please select an item to toggle or press enter return when you are finished ".

Definition not_a_number : string :=
  "Please enter a number or enter/return to exit".

Definition not_in_list : string := "Please enter a number from the list".

Module Console.
Section Functions.

(** [int(s)] on a [str]: the number read, or [None] for a [ValueError]. *)
Variable int_of_str : string -> option Z.

(** The iteration order of sets, as in [DataSetClass]. *)
Variable set_iteration : list string -> list string.

(** What [load_file] finds in the CSV file. *)
Variable data_file : file_content.

(** The [for] loop of [manage_filters]: one line per zip code. *)
Definition print_zips (zips_list : list (string * bool)) : M unit :=
  for_each (enumerate zips_list 1)
    (fun numbered =>
       let zips_number := fst numbered in
       let zips := snd numbered in
       print (string_of_nat zips_number ++ ": " ++ fst zips) "" ;;;
       let mode := if Bool.eqb (snd zips) true then "ACTIVE" else "INACTIVE" in
       print (rjust 10 mode) nl).

(** The [while True] loop of [manage_filters]; each turn reads one line. *)
Fixpoint filters_loop (stdin : list string) (w : world) : ended unit :=
  match DataSetClass.get_zips w with
  | (w, Raise e) => (w, stdin, Uncaught e)
  | (w, Return zips) =>
      let zips_list := PyDict.items zips in
      let w := fst (print_zips zips_list w) in
      let w := say select_prompt "" w in
      match stdin with
      | [] => (w, [], EndOfInput)
      | user_input :: rest =>
          if String.eqb user_input "" then (w, rest, Done tt)
          else
            match int_of_str user_input with
            | None => filters_loop rest (say not_a_number nl w)
            | Some user_int =>
                let select := (user_int - 1)%Z in
                match py_index zips_list select with
                | None => filters_loop rest (say not_in_list nl w)
                | Some item =>
                    let zipcode := fst item in
                    match DataSetClass.toggle_zip zipcode w with
                    | (w, Return _) => filters_loop rest w
                    | (w, Raise e) =>
                        if exn_eqb e ValueError
                        then filters_loop rest (say not_a_number nl w)
                        else (w, rest, Uncaught e)
                    end
                end
            end
      end
  end.

(** [manage_filters]. *)
Definition manage_filters (stdin : list string) (w : world) : ended unit :=
  match DataSetClass.get_zips w with
  | (w, Raise e) => (w, stdin, Uncaught e)
  | (w, Return zips) =>
      match zips with
      | [] => (say "Please load a dataset first" nl w, stdin, Done tt)
      | _ :: _ =>
          filters_loop stdin
            (say "The following labels are in the dataset:" nl w)
      end
  end.

(** [print_menu]. *)
Definition print_menu : M unit :=
  print "Main Menu" nl ;;;
  print ("1 - Print Average Particulate Concentration by Zip Code and "
         ++ "Time") nl ;;;
  print ("2 - Print Minimum Particulate Concentration by Zip Code and "
         ++ "Time") nl ;;;
  print ("3 - Print Maximum Particulate Concentration by Zip Code and "
         ++ "Time") nl ;;;
  print "4 - Adjust Zip Code Filters" nl ;;;
  print "5 - Load Data" nl ;;;
  print "9 - Quit" nl.

(** A method call inside a console function: an exception it raises is
    not caught there. *)
Definition calling {A B : Type} (r : world * outcome A) (stdin : list string)
    (k : A -> world -> option (ended B)) : option (ended B) :=
  match r with
  | (w, Return a) => k a w
  | (w, Raise e) => Some (w, stdin, Uncaught e)
  end.

(** The [while keep_running] loop of [menu] and the farewell after it.  A
    turn reads at least one line; [fuel] bounds the number of turns, and
    [None] means that it was too small.  The choice 5 calls [load_file]
    outside of any [try]: when the file cannot be read, the exception leaves
    [menu], nothing having been stored or written. *)
Fixpoint menu_loop (fuel : nat) (stdin : list string) (w : world)
  : option (ended unit) :=
  match fuel with
  | O => None
  | S fuel =>
      let w := say "" nl w in
      calling (DataSetClass.header w) stdin (fun header w =>
      let w := say header nl w in
      calling (print_menu w) stdin (fun _ w =>
      let w := say "What is your choice? " "" w in
      match stdin with
      | [] => Some (w, [], EndOfInput)
      | user_choice :: rest =>
          match int_of_str user_choice with
          | None => menu_loop fuel rest (say "Please enter a number only. " nl w)
          | Some int_choice =>
              if (int_choice =? 4)%Z then
                match manage_filters rest w with
                | (w, rest', Done _) => menu_loop fuel rest' w
                | (w, rest', Uncaught e) => Some (w, rest', Uncaught e)
                | (w, rest', EndOfInput) => Some (w, rest', EndOfInput)
                | (w, rest', ReadError f) => Some (w, rest', ReadError f)
                end
              else if (int_choice =? 1)%Z then
                calling (DataSetClass.display_cross_table AVG w) rest
                  (fun _ w => menu_loop fuel rest w)
              else if (int_choice =? 2)%Z then
                calling (DataSetClass.display_cross_table MIN w) rest
                  (fun _ w => menu_loop fuel rest w)
              else if (int_choice =? 3)%Z then
                calling (DataSetClass.display_cross_table MAX w) rest
                  (fun _ w => menu_loop fuel rest w)
              else if (int_choice =? 5)%Z then
                match data_file with
                | Readable data_list =>
                    calling
                      (DataSetClass.load_file set_iteration data_list w) rest
                      (fun _ w => menu_loop fuel rest w)
                | Unreadable f => Some (w, rest, ReadError f)
                end
              else if (int_choice =? 9)%Z then
                Some (say "Goodbye! Thank you for using the database. " nl w,
                      rest, Done tt)
              else
                menu_loop fuel rest (say "That's not a valid selection. " nl w)
          end
      end))
  end.

(** [menu]: one turn more than there are lines is always enough. *)
Definition menu (stdin : list string) (w : world) : option (ended unit) :=
  menu_loop (S (List.length stdin)) stdin w.

Definition header_too_long : string :=
  "Header must be a string less or equal to than thirty characters long".

(** The [while True] loop of [main] that asks for the header. *)
Fixpoint header_loop (stdin : list string) (w : world) : ended unit :=
  let w := say "Enter a header for the menu: " "" w in
  match stdin with
  | [] => (w, [], EndOfInput)
  | header :: rest =>
      match DataSetClass.set_header header w with
      | (w, Return _) => (w, rest, Done tt)
      | (w, Raise e) =>
          if exn_eqb e ValueError
          then header_loop rest (say header_too_long nl w)
          else (w, rest, Uncaught e)
      end
  end.

(** [main], started on an empty console. *)
Definition main (stdin : list string) : option (ended unit) :=
  let w := say "Please enter your name: " "" (mkWorld (DataSetClass.__init__ "") "") in
  match stdin with
  | [] => Some (w, [], EndOfInput)
  | name :: rest =>
      let w := say ("Hi " ++ name ++ ", Hope you have a wonderful day!") nl w in
      let purple_air := DataSetClass.__init__ "" in
      let w := mkWorld purple_air (stdout w) in
      match header_loop rest w with
      | (w, rest, Done _) => menu rest (say "" nl w)
      | (w, rest, Uncaught e) => Some (w, rest, Uncaught e)
      | (w, rest, EndOfInput) => Some (w, rest, EndOfInput)
      | (w, rest, ReadError f) => Some (w, rest, ReadError f)
      end
  end.

End Functions.
End Console.

(** ** Vocabulary for the console functions *)

(** A plain decimal numeral, with an optional sign; used where a concrete
    reading of numbers is needed. *)
Fixpoint digits_value (s : string) (acc : Z) : option Z :=
  match s with
  | EmptyString => Some acc
  | String c r =>
      let n := nat_of_ascii c in
      if ((48 <=? n) && (n <=? 57))%nat
      then digits_value r (10 * acc + Z.of_nat (n - 48))
      else None
  end.

Definition decimal_int (s : string) : option Z :=
  match s with
  | EmptyString => None
  | String "-" (String c r) => option_map Z.opp (digits_value (String c r) 0)
  | String "+" (String c r) => digits_value (String c r) 0
  | _ => digits_value s 0
  end.

(** The lines after the first empty one, if there is an empty one. *)
Fixpoint after_first_empty (lines : list string) : option (list string) :=
  match lines with
  | [] => None
  | x :: r => if String.eqb x "" then Some r else after_first_empty r
  end.

(** The dictionary with the flag at position [i] negated. *)
Fixpoint flip_at (i : nat) (zs : PyDict.dict bool) : PyDict.dict bool :=
  match zs, i with
  | [], _ => []
  | (k, v) :: r, O => (k, negb v) :: r
  | kv :: r, S j => kv :: flip_at j r
  end.

(** The text of the list of zip codes shown by [manage_filters]. *)
Definition zips_line (numbered : nat * (string * bool)) : string :=
  string_of_nat (fst numbered) ++ ": " ++ fst (snd numbered)
  ++ rjust 10 (if snd (snd numbered) then "ACTIVE" else "INACTIVE") ++ nl.

Definition zips_listing (zs : PyDict.dict bool) : string :=
  String.concat "" (map zips_line (enumerate zs 1)).

(** The text on the console when a turn of the loop of [manage_filters]
    has asked its question. *)
Definition asked (d : DataSet) (out : string) : string :=
  out ++ zips_listing (_zips d) ++ select_prompt.

(** The text written at each turn of [menu] before the choice is read. *)
Definition menu_text : string :=
  "Main Menu" ++ nl
  ++ "1 - Print Average Particulate Concentration by Zip Code and Time" ++ nl
  ++ "2 - Print Minimum Particulate Concentration by Zip Code and Time" ++ nl
  ++ "3 - Print Maximum Particulate Concentration by Zip Code and Time" ++ nl
  ++ "4 - Adjust Zip Code Filters" ++ nl
  ++ "5 - Load Data" ++ nl
  ++ "9 - Quit" ++ nl.

(** The console when a turn of [menu] has asked for the choice. *)
Definition menu_asked (d : DataSet) (out : string) : string :=
  out ++ nl ++ _header d ++ nl ++ menu_text ++ "What is your choice? ".

(** What [display_cross_table] writes. *)
Definition display_text (d : DataSet) (stat : Stats) : string :=
  if truthy (_data d)
  then render_table (table_with_rows d stat (filtered_keys d))
  else notice.

(** The dataset after a load of [data_list]. *)
Definition reloaded (set_iteration : list string -> list string)
    (d : DataSet) (data_list : list reading) : DataSet :=
  mkDataSet (Some data_list) (_header d)
    (map (fun z => (z, true)) (distinct (map item0 data_list)))
    (set_iteration (map item1 data_list)).

Definition goodbye : string :=
  "Goodbye! Thank you for using the database. " ++ nl.

Definition too_long (line : string) : Prop := (30 < String.length line)%nat.

(** The ways a run of [menu] on the lines [stdin] can end: the input ran
    out; the choice 9 was made and the farewell written; or the choice 5 was
    made on a file that cannot be read. *)
Definition menu_ending_with (int_of_str : string -> option Z)
    (data_file : file_content) (stdin : list string) (out' : string)
    (r : reply unit) : Prop :=
  r = EndOfInput
  \/ (r = Done tt
      /\ (exists line, In line stdin /\ int_of_str line = Some 9%Z)
      /\ exists o, out' = o ++ goodbye)
  \/ (exists f, r = ReadError f /\ data_file = Unreadable f
                /\ exists line, In line stdin /\ int_of_str line = Some 5%Z).

(** The console of [main] when it has greeted the user, refused the
    headers [refused] and asked once more. *)
Definition header_asked (name : string) (refused : list string) : string :=
  "Please enter your name: "
  ++ "Hi " ++ name ++ ", Hope you have a wonderful day!" ++ nl
  ++ String.concat ""
       (map (fun _ : string =>
               "Enter a header for the menu: "
               ++ Console.header_too_long ++ nl) refused)
  ++ "Enter a header for the menu: ".

(** Reading a number written with two decimals back: the text before the
    point, read as a decimal numeral, counts hundreds of hundredths, and the
    two digits after it the rest. *)
Fixpoint before_point (t : string) : option (string * string) :=
  match t with
  | EmptyString => None
  | String c r =>
      if Ascii.eqb c "." then Some (EmptyString, r)
      else
        match before_point r with
        | Some (a, b) => Some (String c a, b)
        | None => None
        end
  end.

Definition digit_value (c : ascii) : option Z :=
  let n := nat_of_ascii c in
  if ((48 <=? n) && (n <=? 57))%nat then Some (Z.of_nat (n - 48)) else None.

Definition text_hundredths (t : string) : option Z :=
  match before_point t with
  | Some (whole, String a (String b EmptyString)) =>
      match NilZero.uint_of_string whole, digit_value a, digit_value b with
      | Some u, Some x, Some y =>
          Some (100 * Z.of_N (N.of_uint u) + 10 * x + y)%Z
      | _, _, _ => None
      end
  | _ => None
  end.

(** [q] hundredths are nearest to the binary value [m * 2^e]: equal to it
    when it is a whole number of hundredths, at most half a hundredth away
    otherwise, and even when exactly half-way. *)
Definition nearest_hundredths (m : positive) (e q : Z) : Prop :=
  ((0 <= e)%Z -> q = (100 * Zpos m * 2 ^ e)%Z)
  /\ ((e < 0)%Z ->
      (2 * Z.abs (q * 2 ^ (- e) - 100 * Zpos m) <= 2 ^ (- e))%Z
      /\ ((2 * Z.abs (q * 2 ^ (- e) - 100 * Zpos m) = 2 ^ (- e))%Z ->
          Z.even q = true)).

(** * Properties *)

(** ** Strings *)

Lemma append_nil_r (s : string) : s ++ "" = s.
Proof. induction s as [|c s IH]; simpl; [reflexivity | now rewrite IH]. Qed.

Lemma append_assoc (a b c : string) : (a ++ b) ++ c = a ++ (b ++ c).
Proof. induction a as [|x a IH]; simpl; [reflexivity | now rewrite IH]. Qed.

Lemma concat_empty_cons (s : string) (l : list string) :
  String.concat "" (s :: l) = s ++ String.concat "" l.
Proof.
  destruct l as [|t l]; simpl.
  - now rewrite append_nil_r.
  - reflexivity.
Qed.

Lemma concat_empty_app (l1 l2 : list string) :
  String.concat "" (l1 ++ l2) = String.concat "" l1 ++ String.concat "" l2.
Proof.
  induction l1 as [|s l1 IH].
  - reflexivity.
  - rewrite <- app_comm_cons, !concat_empty_cons, IH.
    now rewrite append_assoc.
Qed.

Lemma length_append (a b : string) :
  String.length (a ++ b) = (String.length a + String.length b)%nat.
Proof. induction a as [|x a IH]; simpl; [reflexivity | now rewrite IH]. Qed.

Lemma length_spaces (n : nat) : String.length (spaces n) = n.
Proof. induction n as [|n IH]; simpl; [reflexivity | now rewrite IH]. Qed.

(** A field of width [w] holds at least [w] characters, and exactly [w] when
    the text fits. *)
Lemma rjust_length (w : nat) (s : string) :
  String.length (rjust w s) = Nat.max w (String.length s).
Proof. unfold rjust. rewrite length_append, length_spaces. lia. Qed.

Lemma ljust_length (w : nat) (s : string) :
  String.length (ljust w s) = Nat.max w (String.length s).
Proof. unfold ljust. rewrite length_append, length_spaces. lia. Qed.

Lemma digit_char_is_digit (d : Z) : (0 <= d <= 9)%Z -> is_digit (digit_char d).
Proof.
  intros H. unfold is_digit, digit_char.
  rewrite nat_ascii_embedding by lia. lia.
Qed.

Lemma fixed2_two_decimals (q : Z) : two_decimals (fixed2 q).
Proof.
  exists (string_of_Z (q / 100)), (digit_char ((q mod 100) / 10)),
    (digit_char (q mod 10)).
  split; [reflexivity|]. split; apply digit_char_is_digit.
  - pose proof (Z.mod_pos_bound q 100 ltac:(lia)) as B.
    assert (((q mod 100) / 10 < 10)%Z) by (apply Z.div_lt_upper_bound; lia).
    split; [apply Z.div_pos; lia | lia].
  - pose proof (Z.mod_pos_bound q 10 ltac:(lia)). lia.
Qed.

(** The format [".2f"] writes every number (anything but NaN and the
    infinities) with two decimals. *)
Lemma format_2f_two_decimals (x : float) :
  is_finite x = true -> two_decimals (format_2f x).
Proof.
  intros F. unfold format_2f.
  destruct (Prim2SF x) as [s|s| |s m e] eqn:E.
  - exists (sign_text s ++ "0"), "0"%char, "0"%char.
    split; [now rewrite append_assoc|].
    unfold is_digit. change (nat_of_ascii "0") with 48%nat. lia.
  - exfalso. unfold is_finite, is_infinity in F.
    rewrite eqb_spec, abs_spec, E in F. destruct s; simpl in F;
      rewrite orb_true_r in F; discriminate.
  - exfalso. unfold is_finite, is_nan in F.
    rewrite eqb_spec, E in F. discriminate.
  - destruct (fixed2_two_decimals (hundredths m e)) as (p & a & b & Eq & Ha & Hb).
    exists (sign_text s ++ p), a, b. rewrite Eq.
    split; [now rewrite append_assoc | now split].
Qed.

(** A cell fills its field of 10 characters; a number is shown with two
    decimals and the marker is flushed right. *)
Lemma render_cell_layout :
  (forall c, (10 <= String.length (render_cell c))%nat)
  /\ render_cell NotAvailable = "       N/A"
  /\ (forall x, is_finite x = true -> two_decimals (render_cell (Number x))).
Proof.
  split; [|split].
  - intros [x|]; unfold render_cell; rewrite rjust_length; lia.
  - reflexivity.
  - intros x F. unfold render_cell, rjust.
    destruct (format_2f_two_decimals x F) as (p & a & b & E & Ha & Hb).
    exists (spaces (10 - String.length (format_2f x)) ++ p), a, b.
    split; [|now split]. rewrite E at 2. now rewrite append_assoc.
Qed.

(** ** The order of the machine floats

    The comparisons of the primitive floats are specified on [spec_float];
    away from NaN they form a total preorder. *)

Section FloatOrder.

Ltac sf_cases :=
  repeat match goal with
         | |- context [Z.compare ?a ?b] => destruct (Z.compare_spec a b)
         | |- context [Pos.compare ?a ?b] => destruct (Pos.compare_spec a b)
         | H : context [Z.compare ?a ?b] |- _ => destruct (Z.compare_spec a b)
         | H : context [Pos.compare ?a ?b] |- _ =>
             destruct (Pos.compare_spec a b)
         end;
  simpl in *; try discriminate; try reflexivity; try lia.

Lemma SFleb_trans (x y z : spec_float) :
  SFleb x y = true -> SFleb y z = true -> SFleb x z = true.
Proof.
  unfold SFleb, SFcompare.
  change (Pos.compare_cont Eq) with Pos.compare.
  destruct x as [[|]|[|]| |[|] mx ex];
    destruct y as [[|]|[|]| |[|] my ey];
    destruct z as [[|]|[|]| |[|] mz ez];
    try discriminate; try reflexivity; intros Hxy Hyz; sf_cases.
Qed.

Lemma SFltb_false_leb (x y : spec_float) :
  sf_not_nan x -> sf_not_nan y -> SFltb x y = false -> SFleb y x = true.
Proof.
  unfold sf_not_nan, SFltb, SFleb, SFcompare.
  change (Pos.compare_cont Eq) with Pos.compare.
  destruct x as [[|]|[|]| |[|] mx ex];
    destruct y as [[|]|[|]| |[|] my ey];
    try discriminate; try reflexivity; try congruence;
    intros _ _ H; sf_cases.
Qed.

Lemma SFltb_leb (x y : spec_float) : SFltb x y = true -> SFleb x y = true.
Proof.
  unfold SFltb, SFleb.
  destruct (SFcompare x y) as [[| |]|]; try discriminate; reflexivity.
Qed.

Lemma SFleb_refl (x : spec_float) : sf_not_nan x -> SFleb x x = true.
Proof.
  unfold sf_not_nan, SFleb, SFcompare.
  change (Pos.compare_cont Eq) with Pos.compare.
  destruct x as [[|]|[|]| |[|] mx ex]; try reflexivity; try congruence;
    intros _; rewrite Z.compare_refl, Pos.compare_refl; reflexivity.
Qed.

Lemma SFeqb_not_nan (x : spec_float) : SFeqb x x = true -> sf_not_nan x.
Proof. unfold sf_not_nan; destruct x; simpl; intros H E; discriminate. Qed.

Lemma SFleb_not_nan_r (x y : spec_float) : SFleb x y = true -> sf_not_nan y.
Proof.
  unfold sf_not_nan, SFleb, SFcompare.
  destruct x as [[|]|[|]| |[|] mx ex]; destruct y; intros H E;
    discriminate.
Qed.

(** The same facts on the primitive floats. *)

Lemma is_nan_false_sf (x : float) :
  is_nan x = false -> sf_not_nan (Prim2SF x).
Proof.
  unfold is_nan. rewrite eqb_spec. intros H.
  apply SFeqb_not_nan. now destruct (SFeqb (Prim2SF x) (Prim2SF x)).
Qed.

Lemma sf_not_nan_is_nan (x : float) :
  sf_not_nan (Prim2SF x) -> is_nan x = false.
Proof.
  unfold is_nan. rewrite eqb_spec. intros H.
  assert (E : SFeqb (Prim2SF x) (Prim2SF x) = true).
  { pose proof (SFleb_refl H) as R. unfold SFleb in R. unfold SFeqb.
    destruct (Prim2SF x) as [[|]|[|]| |[|] mx ex]; try reflexivity;
      try (now elim H).
    - simpl. change (Pos.compare_cont Eq) with Pos.compare.
      now rewrite Z.compare_refl, Pos.compare_refl.
    - simpl. change (Pos.compare_cont Eq) with Pos.compare.
      now rewrite Z.compare_refl, Pos.compare_refl. }
  now rewrite E.
Qed.

Lemma fle_trans (x y z : float) : fle x y -> fle y z -> fle x z.
Proof. unfold fle. rewrite !leb_spec. apply SFleb_trans. Qed.

Lemma fle_refl (x : float) : is_nan x = false -> fle x x.
Proof.
  intros H. unfold fle. rewrite leb_spec.
  apply SFleb_refl, is_nan_false_sf, H.
Qed.

Lemma ltb_fle (x y : float) : (x <? y)%float = true -> fle x y.
Proof. unfold fle. rewrite ltb_spec, leb_spec. apply SFltb_leb. Qed.

Lemma ltb_false_fle (x y : float) :
  is_nan x = false -> is_nan y = false ->
  (x <? y)%float = false -> fle y x.
Proof.
  intros Hx Hy. unfold fle. rewrite ltb_spec, leb_spec.
  apply SFltb_false_leb; now apply is_nan_false_sf.
Qed.

Lemma valid_concentration_not_nan (c : float) :
  valid_concentration c -> is_nan c = false.
Proof.
  unfold valid_concentration, fle. rewrite leb_spec. intros H.
  apply sf_not_nan_is_nan. eapply SFleb_not_nan_r, H.
Qed.

End FloatOrder.

(** ** min, max and the filtered list *)

Lemma min_loop_In (x : float) (r : list float) : In (min_loop x r) (x :: r).
Proof.
  revert x. induction r as [|item r IH]; intros x; simpl.
  - now left.
  - destruct (item <? x)%float.
    + right. apply IH.
    + destruct (IH x) as [E | E]; [now left | now right; right].
Qed.

Lemma max_loop_In (x : float) (r : list float) : In (max_loop x r) (x :: r).
Proof.
  revert x. induction r as [|item r IH]; intros x; simpl.
  - now left.
  - destruct (x <? item)%float.
    + right. apply IH.
    + destruct (IH x) as [E | E]; [now left | now right; right].
Qed.

Lemma min_loop_le (x : float) (r : list float) :
  is_nan x = false -> Forall (fun c => is_nan c = false) r ->
  forall c, In c (x :: r) -> fle (min_loop x r) c.
Proof.
  revert x. induction r as [|item r IH]; intros x Hx Hr c Hc; simpl.
  - destruct Hc as [<- | []]. now apply fle_refl.
  - inversion Hr as [|? ? Hitem Hr']; subst.
    destruct (item <? x)%float eqn:E.
    + destruct Hc as [<- | Hc].
      * apply fle_trans with item; [|now apply ltb_fle].
        apply IH; simpl; auto.
      * apply IH; auto.
    + destruct Hc as [<- | [<- | Hc]].
      * apply IH; simpl; auto.
      * apply fle_trans with x; [apply IH; simpl; auto|].
        now apply ltb_false_fle.
      * apply IH; simpl; auto.
Qed.

Lemma max_loop_le (x : float) (r : list float) :
  is_nan x = false -> Forall (fun c => is_nan c = false) r ->
  forall c, In c (x :: r) -> fle c (max_loop x r).
Proof.
  revert x. induction r as [|item r IH]; intros x Hx Hr c Hc; simpl.
  - destruct Hc as [<- | []]. now apply fle_refl.
  - inversion Hr as [|? ? Hitem Hr']; subst.
    destruct (x <? item)%float eqn:E.
    + destruct Hc as [<- | Hc].
      * apply fle_trans with item; [now apply ltb_fle|].
        apply IH; simpl; auto.
      * apply IH; auto.
    + destruct Hc as [<- | [<- | Hc]].
      * apply IH; simpl; auto.
      * apply fle_trans with x; [|apply IH; simpl; auto].
        now apply ltb_false_fle.
      * apply IH; simpl; auto.
Qed.

(** The list comprehension of [_cross_table_statistics] selects exactly the
    concentrations of the matching readings. *)
Lemma comprehension_matching (z t : string) (rs : list reading) :
  map item2
    (filter (fun thing => String.eqb (item0 thing) z
                          && String.eqb (item1 thing) t) rs)
  = matching_concentrations z t rs.
Proof.
  induction rs as [|r rs IH]; simpl; [reflexivity|].
  destruct (matches_dec z t r) as [[E0 E1] | N].
  - rewrite E0, E1, !String.eqb_refl. simpl. now rewrite IH.
  - destruct (String.eqb_spec (item0 r) z); destruct (String.eqb_spec (item1 r) t);
      simpl; try apply IH.
    exfalso. apply N. now split.
Qed.

Lemma matching_concentrations_In (z t : string) (rs : list reading) (c : float) :
  In c (matching_concentrations z t rs) <-> In (z, t, c) rs.
Proof.
  induction rs as [|[[z' t'] c'] rs IH]; simpl; [tauto|].
  destruct (matches_dec z t (z', t', c')) as [[E0 E1] | N];
    unfold item0, item1 in *; simpl in *.
  - subst. rewrite <- IH. unfold item2; simpl. split.
    + intros [-> | H]; auto.
    + intros [E | H]; [left; congruence | auto].
  - rewrite IH. split; [auto|].
    intros [E | H]; [|assumption].
    exfalso. apply N. inversion E; now split.
Qed.

(** ** Running the methods *)

Import DataSetClass.

(** The whole of [_cross_table_statistics] in one equation. *)
Lemma cross_table_statistics_run (d : DataSet) (out z t : string) :
  _cross_table_statistics z t (mkWorld d out) =
  (mkWorld d out,
   match _data d with
   | None => Raise EmptyDatasetError
   | Some rs =>
       match matching_concentrations z t rs with
       | [] => Raise NoMatchingItems
       | c :: cs => Return (min_loop c cs, mean (c :: cs), max_loop c cs)
       end
   end).
Proof.
  unfold _cross_table_statistics, bind, get_self. simpl.
  destruct (_data d) as [rs|]; [|reflexivity].
  rewrite comprehension_matching.
  destruct (matching_concentrations z t rs) as [|c cs]; reflexivity.
Qed.

Lemma statistics_for_eq (d : DataSet) (z t : string) :
  statistics_for d z t =
  match _data d with
  | None => Raise EmptyDatasetError
  | Some rs =>
      match matching_concentrations z t rs with
      | [] => Raise NoMatchingItems
      | c :: cs => Return (min_loop c cs, mean (c :: cs), max_loop c cs)
      end
  end.
Proof. unfold statistics_for. now rewrite cross_table_statistics_run. Qed.

Lemma matches_nonempty (z t : string) (rs : list reading) :
  (exists r, In r rs /\ matches z t r) <-> matching_concentrations z t rs <> [].
Proof.
  split.
  - intros [[[z' t'] c] [Hin [E0 E1]]] E.
    unfold item0, item1 in *; simpl in *; subst.
    apply matching_concentrations_In in Hin. rewrite E in Hin. exact Hin.
  - intros N. destruct (matching_concentrations z t rs) as [|c cs] eqn:E;
      [congruence|].
    exists (z, t, c). split; [|now split].
    apply matching_concentrations_In. rewrite E. now left.
Qed.

(** ** Printing the table *)

Lemma for_each_print (d : DataSet) (A : Type) (body : A -> M unit)
    (f : A -> string) (l : list A) :
  (forall x out, body x (mkWorld d out) = (mkWorld d (out ++ f x), Return tt)) ->
  forall out,
    for_each l body (mkWorld d out)
    = (mkWorld d (out ++ String.concat "" (map f l)), Return tt).
Proof.
  intros Hbody. induction l as [|x l IH]; intros out.
  - simpl. now rewrite append_nil_r.
  - cbn [for_each map]. unfold bind. rewrite Hbody, IH.
    now rewrite concat_empty_cons, append_assoc.
Qed.

Lemma tuple_index_select (stat : Stats) (t : float * float * float) :
  tuple_index t (value stat) = select stat t.
Proof. destruct t as [[lo avg] hi]; destruct stat; reflexivity. Qed.

Lemma display_cell_run (d : DataSet) (stat : Stats) (z t out : string) :
  _data d <> None ->
  display_cell stat z t (mkWorld d out)
  = (mkWorld d (out ++ render_cell (cell_of d stat z t)), Return tt).
Proof.
  intros Hd. unfold display_cell, try_except, bind, cell_of.
  rewrite cross_table_statistics_run, statistics_for_eq.
  destruct (_data d) as [rs|]; [|congruence].
  destruct (matching_concentrations z t rs) as [|c cs].
  - cbn [exn_eqb]. unfold print. cbn [self stdout].
    now rewrite append_nil_r.
  - unfold print. cbn [self stdout].
    now rewrite append_nil_r, tuple_index_select.
Qed.

Lemma filter_is_true (zs : PyDict.dict bool) :
  filter (fun kv => Bool.eqb (snd kv) true) (PyDict.items zs)
  = filter (fun kv => snd kv) zs.
Proof.
  unfold PyDict.items. apply filter_ext. intros [k []]; reflexivity.
Qed.

(** The whole of [display_cross_table] in one equation. *)
Lemma display_cross_table_run (d : DataSet) (stat : Stats) (out : string) :
  display_cross_table stat (mkWorld d out)
  = (mkWorld d
       (out ++ if truthy (_data d)
               then render_table (table_with_rows d stat (filtered_keys d))
               else notice),
     Return tt).
Proof.
  unfold display_cross_table, bind, get_self. cbn [self fst snd].
  destruct (truthy (_data d)) eqn:T; cbn [negb].
  - assert (Hd : _data d <> None) by (destruct (_data d); [congruence | discriminate]).
    unfold print at 1. cbn [self stdout].
    rewrite (@for_each_print d _ _ (rjust 10)).
    2:{ intros x o. unfold print. simpl. now rewrite append_nil_r. }
    unfold print at 1. cbn [self stdout].
    rewrite filter_is_true.
    rewrite (@for_each_print d _ _
               (fun z => render_row (z, map (cell_of d stat z) (_times d)))).
    2:{ intros z o. unfold bind, print at 1. cbn [self stdout].
        rewrite (@for_each_print d _ _ (fun t => render_cell (cell_of d stat z t))).
        2:{ intros t o'. now apply display_cell_run. }
        unfold print. cbn [self stdout]. unfold render_row. cbn [fst snd].
        now rewrite map_map, !append_assoc. }
    unfold render_table, table_with_rows, filtered_keys. cbn [columns rows].
    rewrite !map_map. cbn [fst].
    f_equal. f_equal. now rewrite !append_assoc, ?append_nil_r.
  - unfold print, notice. reflexivity.
Qed.

(** ** Dictionaries *)

Section DictFacts.
Variable V : Type.
Implicit Types (d : PyDict.dict V) (k : string) (v : V).

Lemma contains_In d k : PyDict.contains d k = true <-> In k (PyDict.keys d).
Proof.
  unfold PyDict.contains. induction d as [|[k' v'] d IH]; simpl.
  - split; [discriminate | tauto].
  - destruct (String.eqb_spec k' k) as [-> | N].
    + split; auto.
    + rewrite IH. split; [auto | intros [E | H]; [contradiction | exact H]].
Qed.

Lemma contains_false_get d k : PyDict.contains d k = false <-> PyDict.get d k = None.
Proof.
  unfold PyDict.contains. destruct (PyDict.get d k); split; congruence.
Qed.

Lemma keys_set_present d k v :
  In k (PyDict.keys d) -> PyDict.keys (PyDict.set d k v) = PyDict.keys d.
Proof.
  induction d as [|[k' v'] d IH]; simpl; [tauto|].
  destruct (String.eqb_spec k' k) as [-> | N]; [reflexivity|].
  intros [E | H]; [contradiction|]. simpl. f_equal. now apply IH.
Qed.

Lemma keys_set_absent d k v :
  ~ In k (PyDict.keys d) -> PyDict.set d k v = (d ++ [(k, v)])%list.
Proof.
  induction d as [|[k' v'] d IH]; simpl; [reflexivity|].
  intros N. destruct (String.eqb_spec k' k) as [-> | N']; [tauto|].
  f_equal. apply IH. tauto.
Qed.

Lemma get_set_same d k v : PyDict.get (PyDict.set d k v) k = Some v.
Proof.
  induction d as [|[k' v'] d IH]; simpl.
  - now rewrite String.eqb_refl.
  - destruct (String.eqb k' k) eqn:E; simpl; rewrite E; [reflexivity | exact IH].
Qed.

Lemma get_set_other d k k' v :
  k' <> k -> PyDict.get (PyDict.set d k v) k' = PyDict.get d k'.
Proof.
  intros N. induction d as [|[k0 v0] d IH]; simpl.
  - destruct (String.eqb_spec k k'); [congruence | reflexivity].
  - destruct (String.eqb_spec k0 k) as [-> | N0]; simpl.
    + destruct (String.eqb_spec k k'); [congruence | reflexivity].
    + now rewrite IH.
Qed.

Lemma set_set_back d k v v' :
  PyDict.get d k = Some v -> PyDict.set (PyDict.set d k v') k v = d.
Proof.
  induction d as [|[k0 v0] d IH]; simpl; [discriminate|].
  destruct (String.eqb k0 k) eqn:E; simpl; rewrite E.
  - now intros [= ->].
  - intros H. f_equal. now apply IH.
Qed.

Lemma set_same_value d k v :
  PyDict.get d k = Some v -> PyDict.set d k v = d.
Proof.
  induction d as [|[k0 v0] d IH]; simpl; [discriminate|].
  destruct (String.eqb k0 k) eqn:E.
  - now intros [= ->].
  - intros H. f_equal. now apply IH.
Qed.
End DictFacts.

(** ** First occurrences *)

Lemma existsb_eqb_In (x : string) (l : list string) :
  existsb (String.eqb x) l = true <-> In x l.
Proof.
  rewrite existsb_exists. split.
  - intros [y [Hy E]]. apply String.eqb_eq in E. now subst.
  - intros H. exists x. split; [exact H | apply String.eqb_refl].
Qed.

Lemma distinct_from_ext (seen seen' l : list string) :
  (forall x, In x seen <-> In x seen') ->
  distinct_from seen l = distinct_from seen' l.
Proof.
  revert seen seen'. induction l as [|x l IH]; intros seen seen' H; simpl.
  - reflexivity.
  - assert (E : existsb (String.eqb x) seen = existsb (String.eqb x) seen').
    { apply eq_true_iff_eq. rewrite !existsb_eqb_In. apply H. }
    rewrite E. destruct (existsb (String.eqb x) seen').
    + now apply IH.
    + f_equal. apply IH. intros y. simpl. rewrite H. tauto.
Qed.

Lemma distinct_from_In (seen l : list string) (x : string) :
  In x (distinct_from seen l) <-> In x l /\ ~ In x seen.
Proof.
  revert seen. induction l as [|y l IH]; intros seen; simpl; [tauto|].
  destruct (existsb (String.eqb y) seen) eqn:E.
  - apply existsb_eqb_In in E. rewrite IH. split.
    + tauto.
    + intros [[-> | H] N]; [contradiction | tauto].
  - assert (N : ~ In y seen).
    { intros H. apply existsb_eqb_In in H. congruence. }
    simpl. rewrite IH. simpl. split.
    + intros [-> | [H1 H2]]; [tauto|]. split; [tauto|]. tauto.
    + intros [[-> | H] N']; [tauto|].
      destruct (string_dec y x) as [-> | D]; [tauto|]. right. tauto.
Qed.

Lemma distinct_from_NoDup (seen l : list string) : NoDup (distinct_from seen l).
Proof.
  revert seen. induction l as [|y l IH]; intros seen; simpl; [constructor|].
  destruct (existsb (String.eqb y) seen).
  - apply IH.
  - constructor; [|apply IH].
    rewrite distinct_from_In. simpl. tauto.
Qed.

Lemma distinct_In (l : list string) (x : string) : In x (distinct l) <-> In x l.
Proof. unfold distinct. rewrite distinct_from_In. simpl. tauto. Qed.

Lemma distinct_NoDup (l : list string) : NoDup (distinct l).
Proof. apply distinct_from_NoDup. Qed.

(** Inserting the keys one by one, all with the value [true], into a
    dictionary whose values are all [true]. *)
Lemma fold_set_true (ks : list string) (acc : PyDict.dict bool) :
  Forall (fun kv => snd kv = true) acc ->
  fold_left (fun a k => PyDict.set a k true) ks acc
  = (acc ++ map (fun k => (k, true)) (distinct_from (PyDict.keys acc) ks))%list.
Proof.
  revert acc. induction ks as [|k ks IH]; intros acc Hacc; simpl.
  - now rewrite app_nil_r.
  - destruct (existsb (String.eqb k) (PyDict.keys acc)) eqn:E.
    + apply existsb_eqb_In in E.
      assert (G : PyDict.get acc k = Some true).
      { apply contains_In in E. unfold PyDict.contains in E.
        destruct (PyDict.get acc k) as [v|] eqn:G; [|discriminate].
        f_equal. clear E IH. induction acc as [|[k0 v0] acc IHa]; simpl in *;
          [discriminate|].
        inversion Hacc as [|? ? H0 Hacc']; subst. simpl in H0. subst.
        destruct (String.eqb k0 k); [congruence | now apply IHa]. }
      rewrite (@set_same_value _ acc k true G). now apply IH.
    + assert (N : ~ In k (PyDict.keys acc)).
      { intros H. apply existsb_eqb_In in H. congruence. }
      rewrite (@keys_set_absent _ acc k true N), IH.
      * rewrite <- app_assoc. simpl. f_equal. f_equal. f_equal.
        apply distinct_from_ext. intros x. unfold PyDict.keys.
        rewrite map_app, in_app_iff. simpl. tauto.
      * apply Forall_app. split; [exact Hacc|]. now constructor.
Qed.

Lemma from_keys_distinct (ks : list string) :
  PyDict.from_keys ks true = map (fun k => (k, true)) (distinct ks).
Proof.
  unfold PyDict.from_keys. rewrite fold_set_true by constructor. reflexivity.
Qed.

(** Inserting items whose keys are new and pairwise different appends
    them. *)
Lemma fold_set_fresh (V : Type) (kvs acc : list (string * V)) :
  NoDup (PyDict.keys acc ++ map fst kvs) ->
  fold_left (fun a kv => PyDict.set a (fst kv) (snd kv)) kvs acc
  = (acc ++ kvs)%list.
Proof.
  revert acc. induction kvs as [|[k v] kvs IH]; intros acc H; simpl.
  - now rewrite app_nil_r.
  - simpl in H. pose proof (NoDup_remove_2 _ _ _ H) as N.
    rewrite keys_set_absent by (intros I; apply N, in_or_app; now left).
    rewrite IH.
    + now rewrite <- app_assoc.
    + unfold PyDict.keys in *. rewrite map_app. simpl.
      now rewrite <- app_assoc.
Qed.

Lemma from_items_NoDup (V : Type) (kvs : list (string * V)) :
  NoDup (map fst kvs) -> PyDict.from_items kvs = kvs.
Proof.
  intros H. unfold PyDict.from_items. now rewrite fold_set_fresh.
Qed.

Lemma NoDup_keys_filter (V : Type) (f : string * V -> bool)
    (l : list (string * V)) :
  NoDup (map fst l) -> NoDup (map fst (filter f l)).
Proof.
  induction l as [|kv l IH]; simpl; intros H; [constructor|].
  inversion H as [|? ? N H']; subst.
  destruct (f kv); [|now apply IH].
  simpl. constructor; [|now apply IH].
  intros I. apply N. apply in_map_iff in I. destruct I as [kv' [E I]].
  apply filter_In in I. apply in_map_iff. exists kv'. tauto.
Qed.

(** On a dictionary, the rows of the display are the active zip codes. *)
Lemma filtered_keys_active (d : DataSet) :
  NoDup (PyDict.keys (_zips d)) -> filtered_keys d = active_zips d.
Proof.
  intros H. unfold filtered_keys, active_zips.
  rewrite from_items_NoDup; [reflexivity|].
  now apply NoDup_keys_filter.
Qed.

Lemma distinct_from_cons_seen (x : string) (seen l : list string) :
  distinct_from (x :: seen) l
  = filter (fun y => negb (String.eqb y x)) (distinct_from seen l).
Proof.
  revert seen. induction l as [|y l IH]; intros seen; simpl; [reflexivity|].
  destruct (String.eqb_spec y x) as [-> | N]; simpl.
  - destruct (existsb (String.eqb x) seen) eqn:E.
    + apply IH.
    + simpl. rewrite String.eqb_refl. simpl.
      rewrite <- IH. apply distinct_from_ext. intros z. simpl. tauto.
  - destruct (existsb (String.eqb y) seen) eqn:E.
    + apply IH.
    + simpl. destruct (String.eqb_spec y x); [contradiction|]. simpl.
      f_equal. rewrite <- IH. apply distinct_from_ext. intros z. simpl. tauto.
Qed.

(** [distinct] keeps the first occurrence: the head stays, and its later
    copies are the ones removed. *)
Lemma distinct_cons (x : string) (l : list string) :
  distinct (x :: l) = x :: filter (fun y => negb (String.eqb y x)) (distinct l).
Proof. unfold distinct. simpl. now rewrite distinct_from_cons_seen. Qed.

Lemma distinct_length_nodup (l : list string) :
  List.length (distinct l) = List.length (nodup string_dec l).
Proof.
  apply Permutation_length, NoDup_Permutation.
  - apply distinct_NoDup.
  - apply NoDup_nodup.
  - intros x. now rewrite distinct_In, nodup_In.
Qed.

(** ** The mutating methods, each in one equation *)

Lemma set_header_run (d : DataSet) (out h : string) :
  set_header h (mkWorld d out)
  = if (String.length h <=? 30)%nat
    then (mkWorld (with_header d h) out, Return tt)
    else (mkWorld d out, Raise ValueError).
Proof.
  unfold set_header. destruct (String.length h <=? 30)%nat; reflexivity.
Qed.

Lemma toggle_zip_run (d : DataSet) (out z : string) :
  toggle_zip z (mkWorld d out)
  = match PyDict.get (_zips d) z with
    | None => (mkWorld d out, Raise LookupError)
    | Some v =>
        (mkWorld (with_zips d (PyDict.set (_zips d) z (negb v))) out, Return tt)
    end.
Proof.
  unfold toggle_zip, bind, get_self, getitem, PyDict.contains. cbn [self fst snd].
  destruct (PyDict.get (_zips d) z); reflexivity.
Qed.

Lemma load_file_run (set_iteration : list string -> list string)
    (d : DataSet) (out : string) (data_list : list reading) :
  load_file set_iteration data_list (mkWorld d out)
  = (mkWorld
       (mkDataSet (Some data_list) (_header d)
          (map (fun z => (z, true)) (distinct (map item0 data_list)))
          (set_iteration (map item1 data_list)))
       (out ++ string_of_nat (List.length data_list) ++ " lines loaded" ++ nl),
     Return tt).
Proof.
  unfold load_file, _initialize_labels, bind, get_self, set_self, print,
    iter_data, ret.
  cbn [self stdout fst snd with_data with_zips with_times
       _data _header _zips _times].
  rewrite from_keys_distinct. now rewrite !append_assoc.
Qed.

Lemma after_call_data (set_iteration : list string -> list string)
    (c : call) (w : world) :
  _data (self (after_call set_iteration c w))
  = match c with
    | CallLoadFile data_list => Some data_list
    | _ => _data (self w)
    end.
Proof.
  destruct w as [d out]. destruct c; cbn [after_call].
  - rewrite set_header_run. now destruct (String.length header0 <=? 30)%nat.
  - reflexivity.
  - rewrite toggle_zip_run. now destruct (PyDict.get (_zips d) target_zip).
  - now rewrite load_file_run.
  - now rewrite cross_table_statistics_run.
  - now rewrite display_cross_table_run.
Qed.

Lemma after_call_header (set_iteration : list string -> list string)
    (c : call) (w : world) :
  _header (self (after_call set_iteration c w))
  = match c with
    | CallSetHeader h =>
        if (String.length h <=? 30)%nat then h else _header (self w)
    | _ => _header (self w)
    end.
Proof.
  destruct w as [d out]. destruct c; cbn [after_call].
  - rewrite set_header_run. now destruct (String.length header0 <=? 30)%nat.
  - reflexivity.
  - rewrite toggle_zip_run. now destruct (PyDict.get (_zips d) target_zip).
  - now rewrite load_file_run.
  - now rewrite cross_table_statistics_run.
  - now rewrite display_cross_table_run.
Qed.

Lemma after_call_zips_NoDup (set_iteration : list string -> list string)
    (c : call) (w : world) :
  NoDup (PyDict.keys (_zips (self w))) ->
  NoDup (PyDict.keys (_zips (self (after_call set_iteration c w)))).
Proof.
  destruct w as [d out]. cbn [self]. intros H. destruct c; cbn [after_call].
  - rewrite set_header_run. now destruct (String.length header0 <=? 30)%nat.
  - exact H.
  - rewrite toggle_zip_run.
    destruct (PyDict.get (_zips d) target_zip) as [v|] eqn:G; [|exact H].
    cbn [fst self with_zips _zips]. rewrite keys_set_present; [exact H|].
    apply contains_In. unfold PyDict.contains. now rewrite G.
  - rewrite load_file_run. cbn [fst self _zips].
    unfold PyDict.keys. rewrite map_map. cbn [fst]. rewrite map_id.
    apply distinct_NoDup.
  - now rewrite cross_table_statistics_run.
  - now rewrite display_cross_table_run.
Qed.

(** In every state of a session [zip_states] is a dictionary: no key
    twice. *)
Lemma reachable_zips_NoDup (set_iteration : list string -> list string)
    (d : DataSet) :
  reachable set_iteration d -> NoDup (PyDict.keys (_zips d)).
Proof.
  intros [h [calls <-]]. unfold session.
  induction calls as [|c calls IH] using rev_ind.
  - constructor.
  - rewrite fold_left_app. cbn [fold_left]. now apply after_call_zips_NoDup.
Qed.

(** [_data] is unset exactly as long as no load was made. *)
Lemma data_unset_iff_never_loaded (set_iteration : list string -> list string)
    (header : string) (calls : list call) :
  _data (self (session set_iteration header calls)) = None <-> ~ loaded_in calls.
Proof.
  unfold session, loaded_in.
  induction calls as [|c calls IH] using rev_ind.
  - simpl. split; [intros _ [r []] | reflexivity].
  - rewrite fold_left_app. cbn [fold_left]. rewrite after_call_data.
    destruct c;
      try (rewrite IH; split;
           [ intros N [r H]; apply in_app_or in H; destruct H as [H | [H | []]];
             [apply N; now exists r | discriminate]
           | intros N [r H]; apply N; exists r; apply in_or_app; now left ]).
    split; [discriminate|]. intros N. exfalso. apply N.
    exists data_list. apply in_or_app. right. now left.
Qed.

(** Every call keeps a header of at most 30 characters that short. *)
Lemma header_bound_preserved (set_iteration : list string -> list string)
    (c : call) (w : world) :
  (String.length (_header (self w)) <= 30)%nat ->
  (String.length (_header (self (after_call set_iteration c w))) <= 30)%nat.
Proof.
  intros H. rewrite after_call_header. destruct c; try exact H.
  destruct (String.length header0 <=? 30)%nat eqn:E; [|exact H].
  now apply Nat.leb_le.
Qed.

Lemma header_bound_session (set_iteration : list string -> list string)
    (header : string) (calls : list call) :
  (String.length header <= 30)%nat ->
  (String.length (_header (self (session set_iteration header calls))) <= 30)%nat.
Proof.
  intros H. unfold session.
  induction calls as [|c calls IH] using rev_ind.
  - exact H.
  - rewrite fold_left_app. cbn [fold_left]. now apply header_bound_preserved.
Qed.

(** The earlier revision's constructor refuses the header the setter
    refuses. *)
Lemma sample_init_checks_header (h : string) :
  Sample.__init__ h
  = if (String.length h <=? 30)%nat then Return (mkDataSet None h [] [])
    else Raise ValueError.
Proof.
  unfold Sample.__init__. rewrite set_header_run.
  destruct (String.length h <=? 30)%nat; reflexivity.
Qed.

(** On numbers of the data model, the loops of [min] and [max] end on the
    least and on the greatest item. *)
Lemma min_max_loops_extremal (c : float) (cs : list float) :
  Forall valid_concentration (c :: cs) ->
  is_minimum (min_loop c cs) (c :: cs) /\ is_maximum (max_loop c cs) (c :: cs).
Proof.
  intros Hv.
  assert (Hn : Forall (fun x => is_nan x = false) (c :: cs)).
  { eapply Forall_impl; [|exact Hv]. apply valid_concentration_not_nan. }
  inversion Hn as [|? ? Hc Hcs]; subst.
  split; (split; [apply min_loop_In || apply max_loop_In|]).
  - now apply min_loop_le.
  - now apply max_loop_le.
Qed.

(** Without any condition on the floats: nothing in the list is strictly
    below the result of [min], nor strictly above the result of [max]. *)

Lemma SFltb_trans (x y z : spec_float) :
  SFltb x y = true -> SFltb y z = true -> SFltb x z = true.
Proof.
  unfold SFltb, SFcompare.
  change (Pos.compare_cont Eq) with Pos.compare.
  destruct x as [[|]|[|]| |[|] mx ex];
    destruct y as [[|]|[|]| |[|] my ey];
    destruct z as [[|]|[|]| |[|] mz ez];
    try discriminate; try reflexivity; intros Hxy Hyz;
    repeat match goal with
           | |- context [Z.compare ?a ?b] => destruct (Z.compare_spec a b)
           | |- context [Pos.compare ?a ?b] => destruct (Pos.compare_spec a b)
           | H : context [Z.compare ?a ?b] |- _ => destruct (Z.compare_spec a b)
           | H : context [Pos.compare ?a ?b] |- _ =>
               destruct (Pos.compare_spec a b)
           end;
    simpl in *; try discriminate; try reflexivity; try lia.
Qed.

Lemma ltb_trans (x y z : float) :
  (x <? y)%float = true -> (y <? z)%float = true -> (x <? z)%float = true.
Proof. rewrite !ltb_spec. apply SFltb_trans. Qed.

Lemma min_loop_start (x : float) (r : list float) :
  min_loop x r = x \/ (min_loop x r <? x)%float = true.
Proof.
  revert x. induction r as [|item r IH]; intros x; simpl; [now left|].
  destruct (item <? x)%float eqn:E; [|apply IH].
  right. destruct (IH item) as [-> | L]; [exact E|].
  now apply ltb_trans with item.
Qed.

Lemma max_loop_start (x : float) (r : list float) :
  max_loop x r = x \/ (x <? max_loop x r)%float = true.
Proof.
  revert x. induction r as [|item r IH]; intros x; simpl; [now left|].
  destruct (x <? item)%float eqn:E; [|apply IH].
  right. destruct (IH item) as [-> | L]; [exact E|].
  now apply ltb_trans with item.
Qed.

Lemma ltb_irrefl (x : float) : (x <? x)%float = false.
Proof.
  destruct (x <? x)%float eqn:E; [|reflexivity].
  exfalso. rewrite ltb_spec in E. unfold SFltb, SFcompare in E.
  change (Pos.compare_cont Eq) with Pos.compare in E.
  destruct (Prim2SF x) as [[|]|[|]| |[|] m e]; try discriminate;
    rewrite Z.compare_refl, Pos.compare_refl in E; discriminate.
Qed.

Lemma min_loop_none_below (x : float) (r : list float) (c : float) :
  In c (x :: r) -> (c <? min_loop x r)%float = false.
Proof.
  revert x c. induction r as [|item r IH]; intros x c Hc; simpl.
  - destruct Hc as [<- | []]. apply ltb_irrefl.
  - destruct (item <? x)%float eqn:E.
    + destruct Hc as [<- | Hc]; [|now apply IH].
      destruct (x <? min_loop item r)%float eqn:L; [|reflexivity].
      exfalso. pose proof (ltb_trans E L) as T.
      rewrite (IH item item) in T by now left. discriminate.
    + destruct Hc as [<- | [<- | Hc]];
        [apply IH; now left | | apply IH; now right].
      destruct (item <? min_loop x r)%float eqn:L; [|reflexivity].
      exfalso. destruct (min_loop_start x r) as [S | S].
      * rewrite S in L. congruence.
      * pose proof (ltb_trans L S). congruence.
Qed.

Lemma max_loop_none_above (x : float) (r : list float) (c : float) :
  In c (x :: r) -> (max_loop x r <? c)%float = false.
Proof.
  revert x c. induction r as [|item r IH]; intros x c Hc; simpl.
  - destruct Hc as [<- | []]. apply ltb_irrefl.
  - destruct (x <? item)%float eqn:E.
    + destruct Hc as [<- | Hc]; [|now apply IH].
      destruct (max_loop item r <? x)%float eqn:L; [|reflexivity].
      exfalso. pose proof (ltb_trans L E) as T.
      rewrite (IH item item) in T by now left. discriminate.
    + destruct Hc as [<- | [<- | Hc]];
        [apply IH; now left | | apply IH; now right].
      destruct (max_loop x r <? item)%float eqn:L; [|reflexivity].
      exfalso. destruct (max_loop_start x r) as [S | S].
      * rewrite S in L. congruence.
      * pose proof (ltb_trans S L). congruence.
Qed.

(** The loop of [sum] adds the items from 0 in the order of the list. *)
Lemma py_sum_sums_to (cs : list float) : sums_to cs (py_sum cs).
Proof.
  induction cs as [|c cs IH] using rev_ind.
  - constructor.
  - unfold py_sum. rewrite fold_left_app. simpl. now constructor.
Qed.

Lemma sums_to_unique (cs : list float) (s s' : float) :
  sums_to cs s -> sums_to cs s' -> s = s'.
Proof.
  intros H. revert s'. induction H as [|l s c H IH]; intros s' H'.
  - inversion H' as [|l' s0 c' H0 E]; [reflexivity|].
    now destruct l'.
  - inversion H' as [E|l' s0 c' H0 E]; [now destruct l|].
    apply app_inj_tail in E. destruct E as [-> ->].
    now rewrite (IH s0 H0).
Qed.

(** The divisor of the mean is the float of the length of the list. *)
Lemma float_of_len_count (n : nat) :
  (Z.of_nat n < 2 ^ 63)%Z -> float_of_count n (float_of_len n).
Proof.
  intros H. unfold float_of_count, float_of_len.
  rewrite of_uint63_spec, Uint63.of_Z_spec, Z.mod_small; [reflexivity|].
  split; [lia | exact H].
Qed.

(** * The claims *)

(** ** Statistics *)

(** C1: on a loaded dataset, when at least one reading matches both
    descriptors (equality of strings, case included), [statistics_for]
    returns, without touching the dataset, the triple (lo, avg, hi) of the
    concentrations of exactly the matching readings: [avg] is their sum (the
    items added from 0 in the order of the readings) divided by the float of
    their count, with no further rounding; [lo] and [hi] are members of them,
    none of them is strictly below [lo] or strictly above [hi], and [lo] is
    the least and [hi] the greatest of them whenever they are concentrations
    of the data model (not below zero). *)
Theorem statistics_for_min_mean_max :
  forall (d : DataSet) (out z t : string) (rs : list reading),
    _data d = Some rs ->
    (exists r, In r rs /\ matches z t r) ->
    exists lo avg hi total count,
      _cross_table_statistics z t (mkWorld d out)
      = (mkWorld d out, Return (lo, avg, hi))
      /\ In lo (matching_concentrations z t rs)
      /\ In hi (matching_concentrations z t rs)
      /\ (forall c, In c (matching_concentrations z t rs) ->
            (c <? lo)%float = false /\ (hi <? c)%float = false)
      /\ sums_to (matching_concentrations z t rs) total
      /\ ((Z.of_nat (List.length (matching_concentrations z t rs)) < 2 ^ 63)%Z ->
          float_of_count (List.length (matching_concentrations z t rs)) count)
      /\ avg = (total / count)%float
      /\ (Forall valid_concentration (matching_concentrations z t rs) ->
          is_minimum lo (matching_concentrations z t rs)
          /\ is_maximum hi (matching_concentrations z t rs)).
Proof.
  intros d out z t rs Hd Hm.
  rewrite cross_table_statistics_run, Hd.
  apply matches_nonempty in Hm.
  destruct (matching_concentrations z t rs) as [|c cs]; [congruence|].
  exists (min_loop c cs), (mean (c :: cs)), (max_loop c cs),
    (py_sum (c :: cs)), (float_of_len (List.length (c :: cs))).
  split; [reflexivity|].
  split; [apply min_loop_In|].
  split; [apply max_loop_In|].
  split.
  { intros x Hx. split;
      [now apply min_loop_none_below | now apply max_loop_none_above]. }
  split; [apply py_sum_sums_to|].
  split; [apply float_of_len_count|].
  split; [reflexivity|].
  apply min_max_loops_extremal.
Qed.

Lemma statistics_for_min_mean_max_default :
  exists lo avg hi total count,
    _cross_table_statistics "94040" "Morning" (mkWorld (loaded default_data) "")
    = (mkWorld (loaded default_data) "", Return (lo, avg, hi))
    /\ sums_to [3.0%float; 1.0%float] total
    /\ float_of_count 2 count
    /\ avg = (total / count)%float
    /\ is_minimum lo [3.0%float; 1.0%float]
    /\ is_maximum hi [3.0%float; 1.0%float].
Proof.
  destruct (@statistics_for_min_mean_max (loaded default_data) ""
              "94040" "Morning" default_data eq_refl)
    as (lo & avg & hi & total & count & E & _ & _ & _ & S & C & A & H).
  - exists ("94040", "Morning", 3.0%float). split.
    + simpl. tauto.
    + split; reflexivity.
  - exists lo, avg, hi, total, count.
    split; [exact E|]. split; [exact S|].
    split; [apply C; simpl; lia|].
    split; [exact A|].
    apply H. repeat constructor.
Defined.

(** The sum is the one of the machine: the three tenths add up to a float
    above 0.3, and the float of the count 3 is 3. *)
Example sum_of_three_tenths :
  sums_to [0.1%float; 0.1%float; 0.1%float] 0.30000000000000004%float
  /\ float_of_count 3 3%float.
Proof.
  split.
  - apply (sums_snoc (l := [0.1%float; 0.1%float]) (s := 0.2%float) 0.1%float).
    apply (sums_snoc (l := [0.1%float]) (s := 0.1%float) 0.1%float).
    apply (sums_snoc (l := []) (s := 0%float) 0.1%float).
    constructor.
  - vm_compute. reflexivity.
Qed.

(** C2: [statistics_for] raises [EmptyDatasetError] exactly when the
    readings are unset, and on a loaded dataset raises [NoMatchingItems]
    exactly when no reading matches both descriptors; it raises nothing else,
    and the dataset (and the console) is left as it was in every case. *)
Theorem statistics_for_failure_cases :
  forall (d : DataSet) (out z t : string),
    (snd (_cross_table_statistics z t (mkWorld d out)) = Raise EmptyDatasetError
     <-> _data d = None)
    /\ (forall rs, _data d = Some rs ->
          (snd (_cross_table_statistics z t (mkWorld d out))
           = Raise NoMatchingItems
           <-> ~ exists r, In r rs /\ matches z t r))
    /\ (forall e, snd (_cross_table_statistics z t (mkWorld d out)) = Raise e ->
          e = EmptyDatasetError \/ e = NoMatchingItems)
    /\ fst (_cross_table_statistics z t (mkWorld d out)) = mkWorld d out.
Proof.
  intros d out z t. rewrite cross_table_statistics_run. cbn [fst snd].
  split; [|split; [|split; [|reflexivity]]].
  - split.
    + destruct (_data d) as [rs|]; [|reflexivity].
      destruct (matching_concentrations z t rs); discriminate.
    + intros ->. reflexivity.
  - intros rs Hd. rewrite Hd, matches_nonempty. split.
    + destruct (matching_concentrations z t rs); [|discriminate].
      intros _ N. now apply N.
    + intros N.
      destruct (matching_concentrations z t rs) as [|c cs]; [reflexivity|].
      exfalso. apply N. discriminate.
  - destruct (_data d) as [rs|].
    + destruct (matching_concentrations z t rs); intros e E; inversion E.
      right; reflexivity.
    + intros e E; inversion E. left; reflexivity.
Qed.

(** C9, as the code has it: for a pair (zip, time) present in the readings,
    with concentrations of the data model (not below zero), [statistics_for]
    returns a triple (lo, avg, hi) in which lo and hi are members of the
    matching concentrations, lo <= c <= hi for every matching concentration c
    (so lo <= hi), and avg is the float quotient of their float sum by their
    count. *)
Theorem statistics_min_max_bounds :
  forall (d : DataSet) (z t : string) (c : float) (rs : list reading),
    _data d = Some rs ->
    In (z, t, c) rs ->
    Forall valid_concentration (matching_concentrations z t rs) ->
    exists lo avg hi,
      statistics_for d z t = Return (lo, avg, hi)
      /\ In lo (matching_concentrations z t rs)
      /\ In hi (matching_concentrations z t rs)
      /\ (forall x, In x (matching_concentrations z t rs) ->
            fle lo x /\ fle x hi)
      /\ fle lo hi
      /\ avg = mean (matching_concentrations z t rs).
Proof.
  intros d z t c rs Hd Hin Hv.
  rewrite statistics_for_eq, Hd.
  apply matching_concentrations_In in Hin.
  destruct (matching_concentrations z t rs) as [|c0 cs]; [destruct Hin|].
  destruct (min_max_loops_extremal Hv) as [[Hlo Hmin] [Hhi Hmax]].
  exists (min_loop c0 cs), (mean (c0 :: cs)), (max_loop c0 cs).
  repeat split; auto.
Qed.

Lemma statistics_min_max_bounds_default :
  exists lo avg hi,
    statistics_for (loaded default_data) "94040" "Morning" = Return (lo, avg, hi)
    /\ In lo [3.0%float; 1.0%float]
    /\ In hi [3.0%float; 1.0%float]
    /\ (forall x, In x [3.0%float; 1.0%float] -> fle lo x /\ fle x hi)
    /\ fle lo hi
    /\ avg = mean [3.0%float; 1.0%float].
Proof.
  apply (@statistics_min_max_bounds (loaded default_data)
           "94040" "Morning" 3.0%float default_data).
  - reflexivity.
  - simpl. tauto.
  - repeat constructor.
Defined.

(** C9, as stated, fails: three readings of 0.1 for one zip code and one
    time of day have the average 0.10000000000000002, above their maximum
    0.1. *)
Lemma average_above_maximum :
  In ("94022", "Morning", 0.1%float) three_tenths
  /\ Forall valid_concentration
       (matching_concentrations "94022" "Morning" three_tenths)
  /\ statistics_for (loaded three_tenths) "94022" "Morning"
     = Return (0.1%float, 0.10000000000000002%float, 0.1%float)
  /\ ~ (fle 0.1%float 0.10000000000000002%float
        /\ fle 0.10000000000000002%float 0.1%float).
Proof.
  split; [simpl; tauto|].
  split; [repeat constructor|].
  split; [vm_compute; reflexivity|].
  intros [_ H]. vm_compute in H. discriminate H.
Qed.

(** Why the concentrations are taken from the data model: a reading that is
    not a number is below and above nothing, itself included. *)
Example nan_is_unordered :
  statistics_for (loaded [("94022", "Morning", nan); ("94022", "Morning", 1.0%float)])
    "94022" "Morning"
  = Return (nan, nan, nan)
  /\ ~ fle nan nan /\ ~ valid_concentration nan.
Proof.
  split; [vm_compute; reflexivity|].
  split; intros H; vm_compute in H; discriminate H.
Qed.

(** ** The zip-code filter *)

(** C4: whatever the dataset held before, after a load the readings are the
    loaded rows and [zip_states] lists the distinct zip codes of the rows, in
    the order of their first occurrence, each once and each switched on. *)
Theorem load_resets_zip_states :
  forall (set_iteration : list string -> list string) (w : world)
         (data_list : list reading),
    snd (load_file set_iteration data_list w) = Return tt
    /\ _data (self (fst (load_file set_iteration data_list w))) = Some data_list
    /\ _zips (self (fst (load_file set_iteration data_list w)))
       = map (fun z => (z, true)) (distinct (map item0 data_list))
    /\ List.length (_zips (self (fst (load_file set_iteration data_list w))))
       = List.length (nodup string_dec (map item0 data_list))
    /\ NoDup (PyDict.keys (_zips (self (fst (load_file set_iteration data_list w)))))
    /\ (forall z,
          In z (PyDict.keys (_zips (self (fst (load_file set_iteration data_list w)))))
          <-> exists r, In r data_list /\ item0 r = z)
    /\ (forall z b,
          PyDict.get (_zips (self (fst (load_file set_iteration data_list w)))) z
          = Some b -> b = true).
Proof.
  intros si [d out] rows. rewrite load_file_run. cbn [fst snd self _data _zips].
  assert (K : PyDict.keys (map (fun z => (z, true)) (distinct (map item0 rows)))
              = distinct (map item0 rows)).
  { unfold PyDict.keys. rewrite map_map. cbn [fst]. apply map_id. }
  split; [reflexivity|]. split; [reflexivity|]. split; [reflexivity|].
  split; [now rewrite length_map, distinct_length_nodup|].
  rewrite K.
  split; [apply distinct_NoDup|].
  split.
  - intros z. rewrite distinct_In, in_map_iff. split.
    + intros [r [E H]]. now exists r.
    + intros [r [H E]]. now exists r.
  - intros z b. generalize (distinct (map item0 rows)). intros l.
    induction l as [|k l IH]; simpl; [discriminate|].
    destruct (String.eqb k z); [now intros [= <-] | exact IH].
Qed.

(** C7: [toggle_zip z] on a zip code that is not a key raises [LookupError]
    and changes nothing; on a key it returns, flips the flag stored under [z]
    and keeps the readings, the time labels, the header, the keys of
    [zip_states] and their order, and the flag of every other zip code. *)
Theorem toggle_zip_frame :
  forall (d : DataSet) (out z : string),
    (~ In z (PyDict.keys (_zips d)) ->
     toggle_zip z (mkWorld d out) = (mkWorld d out, Raise LookupError))
    /\ (In z (PyDict.keys (_zips d)) ->
        exists zips',
          toggle_zip z (mkWorld d out)
          = (mkWorld (mkDataSet (_data d) (_header d) zips' (_times d)) out,
             Return tt)
          /\ PyDict.keys zips' = PyDict.keys (_zips d)
          /\ PyDict.get zips' z = option_map negb (PyDict.get (_zips d) z)
          /\ (forall k, k <> z -> PyDict.get zips' k = PyDict.get (_zips d) k)).
Proof.
  intros d out z. rewrite toggle_zip_run. split; intros H.
  - rewrite <- contains_In in H. apply not_true_is_false in H.
    apply contains_false_get in H. now rewrite H.
  - pose proof H as C. rewrite <- contains_In in C. unfold PyDict.contains in C.
    destruct (PyDict.get (_zips d) z) as [v|] eqn:G; [|discriminate].
    exists (PyDict.set (_zips d) z (negb v)).
    split; [reflexivity|].
    split; [now apply keys_set_present|].
    split; [apply get_set_same|].
    intros k N. now apply get_set_other.
Qed.

Lemma toggle_zip_frame_default :
  exists zips',
    toggle_zip "94022" (mkWorld (loaded default_data) "")
    = (mkWorld (mkDataSet (_data (loaded default_data))
                  (_header (loaded default_data)) zips'
                  (_times (loaded default_data))) "",
       Return tt)
    /\ PyDict.keys zips' = PyDict.keys (_zips (loaded default_data))
    /\ PyDict.get zips' "94022"
       = option_map negb (PyDict.get (_zips (loaded default_data)) "94022")
    /\ (forall k, k <> "94022" ->
          PyDict.get zips' k = PyDict.get (_zips (loaded default_data)) k).
Proof.
  apply (proj2 (toggle_zip_frame (loaded default_data) "" "94022")).
  simpl. tauto.
Defined.

(** C8: toggling a zip code that is a key twice in a row returns both times
    and leaves the whole dataset, [zip_states] included, as it was. *)
Theorem toggle_zip_involution :
  forall (d : DataSet) (out z : string),
    In z (PyDict.keys (_zips d)) ->
    (toggle_zip z ;;; toggle_zip z) (mkWorld d out) = (mkWorld d out, Return tt).
Proof.
  intros d out z H. unfold bind. rewrite toggle_zip_run.
  rewrite <- contains_In in H. unfold PyDict.contains in H.
  destruct (PyDict.get (_zips d) z) as [v|] eqn:G; [|discriminate].
  rewrite toggle_zip_run. cbn [with_zips _zips].
  rewrite get_set_same, negb_involutive.
  rewrite (@set_set_back _ (_zips d) z v (negb v) G).
  destruct d; reflexivity.
Qed.

Lemma toggle_zip_involution_default :
  (toggle_zip "94022" ;;; toggle_zip "94022") (mkWorld (loaded default_data) "")
  = (mkWorld (loaded default_data) "", Return tt).
Proof.
  apply (@toggle_zip_involution (loaded default_data) "" "94022").
  simpl. tauto.
Defined.

(** ** The header *)

(** C5 fails on the code: the constructor stores the header it is given
    without the check of the setter, so a dataset built with a header of 31
    characters is a reachable state whose header is longer than 30. *)
Theorem constructor_stores_long_header :
  forall set_iteration : list string -> list string,
    reachable set_iteration (__init__ long_header)
    /\ _header (__init__ long_header) = long_header
    /\ String.length (_header (__init__ long_header)) = 31%nat.
Proof.
  intros si. split; [|split; reflexivity].
  exists long_header, []. reflexivity.
Qed.

(** C6: the header setter stores every string of at most 30 characters and
    changes nothing else; on a string of 31 characters or more it raises
    [ValueError] and the dataset, its header included, stays as it was. *)
Theorem header_setter_accepts_up_to_30 :
  forall (d : DataSet) (out h : string),
    ((String.length h <= 30)%nat ->
     set_header h (mkWorld d out)
     = (mkWorld (mkDataSet (_data d) h (_zips d) (_times d)) out, Return tt))
    /\ ((31 <= String.length h)%nat ->
        set_header h (mkWorld d out) = (mkWorld d out, Raise ValueError)).
Proof.
  intros d out h. rewrite set_header_run. split; intros H.
  - apply Nat.leb_le in H. now rewrite H.
  - destruct (Nat.leb_spec (String.length h) 30) as [L | L]; [lia | reflexivity].
Qed.

Lemma header_setter_accepts_clean_air :
  set_header "CLEAN AIR 2022" (mkWorld (__init__ "") "")
  = (mkWorld (mkDataSet None "CLEAN AIR 2022" [] []) "", Return tt).
Proof.
  apply (proj1 (header_setter_accepts_up_to_30 (__init__ "") "" "CLEAN AIR 2022")).
  simpl. lia.
Defined.

(** ** The table *)

(** C3, as the code has it: when the readings hold at least one row,
    [display_cross_table] prints the table and nothing else: a heading line
    with the time labels of the dataset, then one line per zip code whose
    flag is true, in the order of [zip_states], the others being left out;
    a cell shows the selected component of [statistics_for] with two
    decimals, or N/A in a field of the same width exactly when no reading
    matches the zip code and the time label ([zip_states] being a dictionary:
    no key twice).  When the readings are unset or hold no row it prints only
    the notice.  The dataset is unchanged. *)
Theorem display_cross_table_renders_table :
  forall (d : DataSet) (out : string) (stat : Stats),
    (forall rs, _data d = Some rs -> rs <> [] ->
       NoDup (PyDict.keys (_zips d)) ->
       display_cross_table stat (mkWorld d out)
       = (mkWorld d (out ++ render_table (table_of d stat)), Return tt)
       /\ columns (table_of d stat) = _times d
       /\ map fst (rows (table_of d stat)) = active_zips d
       /\ (forall z, In z (active_zips d) <-> In (z, true) (_zips d))
       /\ (forall z cells, In (z, cells) (rows (table_of d stat)) ->
             cells = map (cell_of d stat z) (_times d))
       /\ (forall z t, cell_of d stat z t = NotAvailable
                       <-> ~ exists r, In r rs /\ matches z t r)
       /\ (forall z t x, cell_of d stat z t = Number x
                         <-> exists tr, statistics_for d z t = Return tr
                                        /\ x = select stat tr)
       /\ (forall c, (10 <= String.length (render_cell c))%nat)
       /\ render_cell NotAvailable = "       N/A"
       /\ (forall x, is_finite x = true ->
             two_decimals (render_cell (Number x))))
    /\ (_data d = None \/ _data d = Some [] ->
        display_cross_table stat (mkWorld d out)
        = (mkWorld d (out ++ notice), Return tt)).
Proof.
  intros d out stat. rewrite display_cross_table_run. split.
  - intros rs Hd Hrs Hz. rewrite Hd, (filtered_keys_active _ Hz).
    destruct rs as [|r rs']; [congruence|]. cbn [truthy].
    split; [reflexivity|]. split; [reflexivity|].
    split.
    { unfold table_of, table_with_rows. cbn [rows].
      rewrite map_map. cbn [fst]. apply map_id. }
    split.
    { intros z. unfold active_zips. rewrite in_map_iff. split.
      - intros [[k b] [E H]]. apply filter_In in H. simpl in *. subst.
        destruct H as [H ->]. exact H.
      - intros H. exists (z, true). split; [reflexivity|].
        apply filter_In. now split. }
    split.
    { intros z cells H. unfold table_of, table_with_rows in H. cbn [rows] in H.
      apply in_map_iff in H. destruct H as [z' [E _]]. now inversion E. }
    split.
    { intros z t. unfold cell_of. rewrite statistics_for_eq, Hd, matches_nonempty.
      destruct (matching_concentrations z t (r :: rs')) as [|c cs].
      - split; [intros _ N; now apply N | reflexivity].
      - split; [discriminate | intros N; exfalso; apply N; discriminate]. }
    split; [|exact render_cell_layout].
    { intros z t x. unfold cell_of.
      destruct (statistics_for d z t) as [tr | e].
      - split.
        + intros [= <-]. now exists tr.
        + intros [tr' [[= <-] ->]]. reflexivity.
      - split; [discriminate | intros [tr' [E _]]; discriminate]. }
  - intros [-> | ->]; reflexivity.
Qed.

Lemma display_cross_table_default :
  display_cross_table MIN (mkWorld (loaded default_data) "")
  = (mkWorld (loaded default_data)
       ("" ++ render_table (table_of (loaded default_data) MIN)),
     Return tt)
  /\ stdout (fst (display_cross_table MIN (mkWorld (loaded default_data) "")))
     = "        Morning    Midday   Evening" ++ nl
       ++ "12345      1.10       N/A       N/A" ++ nl
       ++ "94022      2.20      1.00      3.20" ++ nl
       ++ "94040      1.00       N/A       N/A" ++ nl.
Proof.
  split.
  - apply (proj1 (display_cross_table_renders_table
                    (loaded default_data) "" MIN) default_data).
    + reflexivity.
    + discriminate.
    + change (NoDup ["12345"; "94022"; "94040"]).
      repeat (constructor; [simpl; intuition discriminate|]). constructor.
  - vm_compute. reflexivity.
Defined.

(** C3, as stated, fails: after a load of zero rows the readings are set,
    yet [display_cross_table] prints the notice and not the (empty) table. *)
Lemma display_after_empty_load :
  _data (loaded []) = Some []
  /\ display_cross_table MIN (mkWorld (loaded []) "")
     = (mkWorld (loaded []) notice, Return tt)
  /\ render_table (table_of (loaded []) MIN) = "     " ++ nl
  /\ notice <> render_table (table_of (loaded []) MIN).
Proof.
  split; [reflexivity|]. split; [reflexivity|]. split; [reflexivity|].
  vm_compute. discriminate.
Qed.

(** ** Queries *)

(** C10: [get_zips], [statistics_for] and [display_cross_table] leave the
    dataset as it was (readings, [zip_states], time labels and header),
    whatever the state and the arguments, whether they return or raise. *)
Theorem queries_leave_dataset_unchanged :
  forall (w : world) (z t : string) (stat : Stats),
    self (fst (get_zips w)) = self w
    /\ self (fst (_cross_table_statistics z t w)) = self w
    /\ self (fst (display_cross_table stat w)) = self w.
Proof.
  intros [d out] z t stat.
  rewrite cross_table_statistics_run, display_cross_table_run.
  repeat split.
Qed.

(** ** The program on the sample data *)

(** Matching is by exact equality of strings: the case counts. *)
Example statistics_case_sensitive :
  statistics_for (loaded default_data) "94040" "Morning"
  = Return (1.0%float, 2.0%float, 3.0%float)
  /\ statistics_for (loaded default_data) "94040" "morning"
     = Raise NoMatchingItems.
Proof. split; vm_compute; reflexivity. Qed.

(** Before any load the statistics are refused and the display is the
    notice alone. *)
Example nothing_loaded :
  statistics_for (__init__ "") "94040" "Morning" = Raise EmptyDatasetError
  /\ stdout (fst (display_cross_table AVG (mkWorld (__init__ "") ""))) = notice.
Proof. split; reflexivity. Qed.

(** A zip code that is switched off has no row; a reload switches every zip
    code on again. *)
Example toggled_zip_has_no_row :
  stdout (after_call distinct (CallDisplay AVG)
            (mkWorld (self (session distinct ""
                              [CallLoadFile default_data; CallToggleZip "94022"]))
               ""))
  = "        Morning    Midday   Evening" ++ nl
    ++ "12345      1.10       N/A       N/A" ++ nl
    ++ "94040      2.00       N/A       N/A" ++ nl
  /\ _zips (self (session distinct ""
                    [CallLoadFile default_data; CallToggleZip "94022";
                     CallLoadFile default_data]))
     = [("12345", true); ("94022", true); ("94040", true)].
Proof. split; vm_compute; reflexivity. Qed.

(** A header of 31 characters is refused by the setter, and by the
    constructor of the earlier revision, but not by the constructor. *)
Example long_header_paths :
  set_header long_header (mkWorld (__init__ "CLEAN AIR 2022") "")
  = (mkWorld (__init__ "CLEAN AIR 2022") "", Raise ValueError)
  /\ Sample.__init__ long_header = Raise ValueError
  /\ _header (__init__ long_header) = long_header.
Proof. repeat split. Qed.

(** The format of a number: the exact binary value, rounded to the nearest
    hundredth, ties to the even one. *)
Example format_2f_rounding :
  format_2f 0.125%float = "0.12" /\ format_2f 0.375%float = "0.38"
  /\ format_2f 79.88%float = "79.88" /\ format_2f 0.005%float = "0.01".
Proof. repeat split; vm_compute; reflexivity. Qed.

(** * Beyond the claims: the console functions *)

(** ** Indexing and positions *)

Lemma py_index_In (A : Type) (l : list A) (i : Z) (x : A) :
  py_index l i = Some x -> In x l.
Proof.
  unfold py_index.
  destruct (0 <=? i)%Z; [apply nth_error_In|].
  destruct (0 <=? Z.of_nat (List.length l) + i)%Z; [apply nth_error_In|].
  discriminate.
Qed.

(** Inside the range an index, negative or not, designates the position
    [i mod len(l)]; outside there is nothing. *)
Lemma py_index_position (A : Type) (l : list A) (i : Z) :
  py_index l i
  = if ((- Z.of_nat (List.length l) <=? i)
        && (i <? Z.of_nat (List.length l)))%Z
    then nth_error l (Z.to_nat (i mod Z.of_nat (List.length l)))
    else None.
Proof.
  unfold py_index. set (n := Z.of_nat (List.length l)).
  destruct (Z.leb_spec 0 i) as [P | N].
  - destruct (Z.ltb_spec i n) as [L | G].
    + replace (- n <=? i)%Z with true by (symmetry; apply Z.leb_le; lia).
      simpl. now rewrite Z.mod_small by lia.
    + rewrite andb_false_r. apply nth_error_None. unfold n in G. lia.
  - destruct (Z.leb_spec 0 (n + i)) as [P' | N'].
    + replace (- n <=? i)%Z with true by (symmetry; apply Z.leb_le; lia).
      replace (i <? n)%Z with true by (symmetry; apply Z.ltb_lt; lia).
      simpl. f_equal. f_equal.
      rewrite <- (Z.mod_small (n + i) n) by lia.
      rewrite Z.add_comm. rewrite <- (Z.mul_1_l n) at 1.
      now rewrite Z.mod_add by lia.
    + replace (- n <=? i)%Z with false by (symmetry; apply Z.leb_gt; lia).
      reflexivity.
Qed.

Lemma In_get_some (V : Type) (d : PyDict.dict V) (k : string) (v : V) :
  In (k, v) d -> exists v', PyDict.get d k = Some v'.
Proof.
  induction d as [|[k0 v0] d IH]; simpl; [tauto|].
  intros [E | H].
  - inversion E; subst. rewrite String.eqb_refl. now exists v.
  - destruct (String.eqb k0 k); [now exists v0 | now apply IH].
Qed.

(** In a dictionary (no key twice) the entry at a position is the one its
    key leads to, and storing the negated flag under that key negates the
    flag at that position. *)
Lemma nth_error_get_flip (zs : PyDict.dict bool) (p : nat) (k : string)
    (v : bool) :
  NoDup (PyDict.keys zs) ->
  nth_error zs p = Some (k, v) ->
  PyDict.get zs k = Some v /\ PyDict.set zs k (negb v) = flip_at p zs.
Proof.
  revert p. induction zs as [|[k0 v0] zs IH]; intros p N H.
  - destruct p; discriminate.
  - simpl in N. inversion N as [|? ? N0 N']; subst.
    destruct p as [|p]; simpl in H.
    + inversion H; subst. simpl. rewrite String.eqb_refl. now split.
    + destruct (IH p N' H) as [G S]. simpl.
      destruct (String.eqb_spec k0 k) as [-> | D].
      * exfalso. apply N0. apply nth_error_In in H.
        unfold PyDict.keys. apply in_map_iff. now exists (k, v).
      * split; [exact G | now rewrite S].
Qed.

Lemma flip_at_keys (zs : PyDict.dict bool) (p : nat) :
  PyDict.keys (flip_at p zs) = PyDict.keys zs.
Proof.
  revert p. induction zs as [|[k v] zs IH]; intros [|p]; simpl; try reflexivity.
  f_equal. apply IH.
Qed.

(** [flip_at] changes one flag and no other entry. *)
Lemma flip_at_nth (zs : PyDict.dict bool) (p q : nat) :
  nth_error (flip_at p zs) q
  = if (q =? p)%nat
    then option_map (fun kv => (fst kv, negb (snd kv))) (nth_error zs q)
    else nth_error zs q.
Proof.
  revert p q. induction zs as [|[k v] zs IH]; intros p q.
  - destruct p, q; simpl; try reflexivity; now destruct (q =? p)%nat.
  - destruct p, q; simpl; try reflexivity. apply IH.
Qed.

(** ** manage_filters *)

Lemma say_run (s e : string) (d : DataSet) (out : string) :
  say s e (mkWorld d out) = mkWorld d (out ++ s ++ e).
Proof. reflexivity. Qed.

Lemma print_zips_run (zs : PyDict.dict bool) (d : DataSet) (out : string) :
  Console.print_zips zs (mkWorld d out)
  = (mkWorld d (out ++ zips_listing zs), Return tt).
Proof.
  unfold Console.print_zips, zips_listing.
  apply for_each_print. intros [n [k v]] o. unfold bind, print, zips_line.
  cbn [fst snd self stdout].
  replace (if Bool.eqb v true then "ACTIVE" else "INACTIVE")
    with (if v then "ACTIVE" else "INACTIVE") by now destruct v.
  now rewrite !append_assoc.
Qed.

Section ConsoleFacts.

Variable int_of_str : string -> option Z.
Variable set_iteration : list string -> list string.
Variable data_file : file_content.

Local Abbreviation filters_loop := (Console.filters_loop int_of_str).
Local Abbreviation manage_filters := (Console.manage_filters int_of_str).
Local Abbreviation menu_loop :=
  (Console.menu_loop int_of_str set_iteration data_file).
Local Abbreviation menu := (Console.menu int_of_str set_iteration data_file).
Local Abbreviation main := (Console.main int_of_str set_iteration data_file).

(** One turn of the loop of [manage_filters]. *)
Lemma filters_loop_turn (d : DataSet) (out : string) (stdin : list string) :
  filters_loop stdin (mkWorld d out)
  = match stdin with
    | [] => (mkWorld d (asked d out), [], EndOfInput)
    | line :: rest =>
        if String.eqb line "" then (mkWorld d (asked d out), rest, Done tt)
        else
          match int_of_str line with
          | None =>
              filters_loop rest
                (mkWorld d (asked d out ++ not_a_number ++ nl))
          | Some n =>
              match py_index (_zips d) (n - 1) with
              | None =>
                  filters_loop rest
                    (mkWorld d (asked d out ++ not_in_list ++ nl))
              | Some item =>
                  match PyDict.get (_zips d) (fst item) with
                  | Some v =>
                      filters_loop rest
                        (mkWorld
                           (with_zips d
                              (PyDict.set (_zips d) (fst item) (negb v)))
                           (asked d out))
                  | None => (mkWorld d (asked d out), rest, Uncaught LookupError)
                  end
              end
          end
    end.
Proof.
  unfold asked.
  destruct stdin as [|line rest]; cbn [Console.filters_loop get_zips bind
    get_self ret self fst snd PyDict.items];
    rewrite print_zips_run; cbn [fst]; rewrite say_run, append_nil_r,
      append_assoc; unfold PyDict.items.
  - reflexivity.
  - destruct (String.eqb line ""); [reflexivity|].
    destruct (int_of_str line) as [n|]; [|now rewrite say_run].
    destruct (py_index (_zips d) (n - 1)) as [item|]; [|now rewrite say_run].
    rewrite toggle_zip_run.
    destruct (PyDict.get (_zips d) (fst item)); reflexivity.
Qed.

Lemma with_zips_same (d : DataSet) : with_zips d (_zips d) = d.
Proof. now destruct d. Qed.

Lemma manage_filters_run (d : DataSet) (out : string) (stdin : list string) :
  manage_filters stdin (mkWorld d out)
  = match _zips d with
    | [] => (mkWorld d (out ++ notice), stdin, Done tt)
    | _ :: _ =>
        filters_loop stdin
          (mkWorld d (out ++ "The following labels are in the dataset:" ++ nl))
    end.
Proof.
  unfold Console.manage_filters, get_zips, bind, get_self, ret. cbn [self fst snd].
  destruct (_zips d); reflexivity.
Qed.

(** What the loop amounts to: it stops at the first empty line, or when
    the input runs out; only the flags can have changed. *)
Lemma filters_loop_result (stdin : list string) :
  forall (d : DataSet) (out : string),
  exists zs' out',
    filters_loop stdin (mkWorld d out)
    = (mkWorld (with_zips d zs') out',
       match after_first_empty stdin with Some r => r | None => [] end,
       match after_first_empty stdin with
       | Some _ => Done tt
       | None => EndOfInput
       end)
    /\ PyDict.keys zs' = PyDict.keys (_zips d).
Proof.
  induction stdin as [|line rest IH]; intros d out; rewrite filters_loop_turn.
  - exists (_zips d), (asked d out). now rewrite with_zips_same.
  - cbn [after_first_empty]. destruct (String.eqb line "").
    + exists (_zips d), (asked d out). now rewrite with_zips_same.
    + destruct (int_of_str line) as [n|]; [|apply IH].
      destruct (py_index (_zips d) (n - 1)) as [[k v]|] eqn:P; [|apply IH].
      apply py_index_In in P. pose proof P as I.
      apply In_get_some in P. destruct P as [v' G]. cbn [fst]. rewrite G.
      destruct (IH (with_zips d (PyDict.set (_zips d) k (negb v'))) (asked d out))
        as (zs' & out' & E & K).
      exists zs', out'. rewrite E. split; [reflexivity|].
      rewrite K. cbn [with_zips _zips]. apply keys_set_present.
      unfold PyDict.keys. apply in_map_iff. now exists (k, v).
Qed.

(** X1: [manage_filters] on a dataset without zip codes writes the notice and
    reads nothing; otherwise it reads up to the first empty line and returns,
    leaving the lines after it, or raises [EOFError] when there is no empty
    line; no other exception comes out of it. *)
Theorem manage_filters_reads_to_empty_line :
  forall (stdin : list string) (w : world),
    snd (manage_filters stdin w)
    = match _zips (self w), after_first_empty stdin with
      | [], _ => Done tt
      | _ :: _, Some _ => Done tt
      | _ :: _, None => EndOfInput
      end
    /\ snd (fst (manage_filters stdin w))
       = match _zips (self w), after_first_empty stdin with
         | [], _ => stdin
         | _ :: _, Some rest => rest
         | _ :: _, None => []
         end
    /\ (_zips (self w) = [] ->
        fst (fst (manage_filters stdin w))
        = mkWorld (self w) (stdout w ++ notice)).
Proof.
  intros stdin [d out]. rewrite manage_filters_run. cbn [self stdout].
  destruct (_zips d) as [|kv zs] eqn:Hz.
  - repeat split.
  - destruct (filters_loop_result stdin d
                (out ++ "The following labels are in the dataset:" ++ nl))
      as (zs' & out' & E & _).
    rewrite E. cbn [fst snd].
    split; [|split]; [| |discriminate];
      destruct (after_first_empty stdin); reflexivity.
Qed.

(** X2: whatever the user types, [manage_filters] leaves the readings, the
    header, the time labels and the zip codes of [zip_states] with their
    order as they were: only flags can change. *)
Theorem manage_filters_changes_flags_only :
  forall (stdin : list string) (w : world),
    _data (self (fst (fst (manage_filters stdin w)))) = _data (self w)
    /\ _header (self (fst (fst (manage_filters stdin w)))) = _header (self w)
    /\ _times (self (fst (fst (manage_filters stdin w)))) = _times (self w)
    /\ PyDict.keys (_zips (self (fst (fst (manage_filters stdin w)))))
       = PyDict.keys (_zips (self w)).
Proof.
  intros stdin [d out]. rewrite manage_filters_run. cbn [self stdout].
  destruct (_zips d) as [|kv zs] eqn:Hz.
  - cbn [fst self]. now rewrite Hz.
  - destruct (filters_loop_result stdin d
                (out ++ "The following labels are in the dataset:" ++ nl))
      as (zs' & out' & E & K).
    rewrite E. cbn [fst self with_zips _data _header _times _zips].
    rewrite K, Hz. repeat split.
Qed.

(** The answer [n] designates a position of the list when
    [-len <= n - 1 < len]; the flag there is flipped and the loop goes on. *)
Lemma filters_loop_select (d : DataSet) (out line : string)
    (rest : list string) (n : Z) :
  NoDup (PyDict.keys (_zips d)) ->
  line <> "" ->
  int_of_str line = Some n ->
  (- Z.of_nat (List.length (_zips d)) <= n - 1
   < Z.of_nat (List.length (_zips d)))%Z ->
  filters_loop (line :: rest) (mkWorld d out)
  = filters_loop rest
      (mkWorld
         (with_zips d
            (flip_at
               (Z.to_nat ((n - 1) mod Z.of_nat (List.length (_zips d))))
               (_zips d)))
         (asked d out)).
Proof.
  intros N L I R. rewrite filters_loop_turn.
  apply String.eqb_neq in L. rewrite L, I, py_index_position.
  replace (- Z.of_nat (List.length (_zips d)) <=? n - 1)%Z with true
    by (symmetry; apply Z.leb_le; lia).
  replace (n - 1 <? Z.of_nat (List.length (_zips d)))%Z with true
    by (symmetry; apply Z.ltb_lt; lia).
  cbn [andb].
  destruct (nth_error (_zips d)
              (Z.to_nat ((n - 1) mod Z.of_nat (List.length (_zips d)))))
    as [[k v]|] eqn:P.
  - destruct (@nth_error_get_flip _ _ _ _ N P) as [G S]. cbn [fst].
    now rewrite G, S.
  - exfalso. apply nth_error_None in P.
    pose proof (Z.mod_pos_bound (n - 1) (Z.of_nat (List.length (_zips d)))).
    lia.
Qed.

(** X3: at any turn of the loop of [manage_filters], the answer [n] with
    [1 <= n <= len(zip_states)] flips the flag of the [n]-th zip code of the
    list, changes nothing else, and the loop goes on with the next line. *)
Theorem filters_answer_toggles_nth :
  forall (d : DataSet) (out line : string) (rest : list string) (n : Z),
    NoDup (PyDict.keys (_zips d)) ->
    line <> "" ->
    int_of_str line = Some n ->
    (1 <= n <= Z.of_nat (List.length (_zips d)))%Z ->
    filters_loop (line :: rest) (mkWorld d out)
    = filters_loop rest
        (mkWorld (with_zips d (flip_at (Z.to_nat (n - 1)) (_zips d)))
           (asked d out)).
Proof.
  intros d out line rest n N L I R.
  rewrite (@filters_loop_select d out line rest n N L I) by lia.
  now rewrite Z.mod_small by lia.
Qed.

(** X4: the answer 0, and a negative answer above [-len(zip_states)], is
    not refused: the index [n - 1] counts from the end of the list, so that
    0 flips the flag of the last zip code. *)
Theorem filters_answer_zero_toggles_last :
  forall (d : DataSet) (out line : string) (rest : list string) (n : Z),
    NoDup (PyDict.keys (_zips d)) ->
    line <> "" ->
    int_of_str line = Some n ->
    (- Z.of_nat (List.length (_zips d)) < n <= 0)%Z ->
    filters_loop (line :: rest) (mkWorld d out)
    = filters_loop rest
        (mkWorld
           (with_zips d
              (flip_at (List.length (_zips d) - 1 - Z.to_nat (- n)) (_zips d)))
           (asked d out)).
Proof.
  intros d out line rest n N L I R.
  rewrite (@filters_loop_select d out line rest n N L I) by lia.
  do 3 f_equal.
  replace ((n - 1) mod Z.of_nat (List.length (_zips d)))%Z
    with (Z.of_nat (List.length (_zips d)) + (n - 1))%Z.
  - f_equal. lia.
  - apply Z.mod_unique with (q := (-1)%Z); lia.
Qed.

(** X5: an answer that is not a number, and a number above
    [len(zip_states)] or not above [-len(zip_states)], changes nothing in the
    dataset: the loop writes its complaint and goes on with the next line. *)
Theorem filters_answer_refused :
  forall (d : DataSet) (out line : string) (rest : list string),
    line <> "" ->
    (int_of_str line = None ->
     filters_loop (line :: rest) (mkWorld d out)
     = filters_loop rest (mkWorld d (asked d out ++ not_a_number ++ nl)))
    /\ (forall n,
          int_of_str line = Some n ->
          (Z.of_nat (List.length (_zips d)) < n
           \/ n <= - Z.of_nat (List.length (_zips d)))%Z ->
          filters_loop (line :: rest) (mkWorld d out)
          = filters_loop rest (mkWorld d (asked d out ++ not_in_list ++ nl))).
Proof.
  intros d out line rest L. apply String.eqb_neq in L.
  rewrite filters_loop_turn, L. split.
  - intros ->. reflexivity.
  - intros n -> R. rewrite py_index_position.
    destruct R as [R | R].
    + replace (n - 1 <? Z.of_nat (List.length (_zips d)))%Z with false
        by (symmetry; apply Z.ltb_ge; lia).
      now rewrite andb_false_r.
    + replace (- Z.of_nat (List.length (_zips d)) <=? n - 1)%Z with false
        by (symmetry; apply Z.leb_gt; lia).
      reflexivity.
Qed.

(** ** menu *)

Lemma after_first_empty_suffix (stdin rest : list string) :
  after_first_empty stdin = Some rest ->
  exists pre, stdin = (pre ++ "" :: rest)%list /\ ~ In "" pre.
Proof.
  revert rest. induction stdin as [|x stdin IH]; intros rest; simpl;
    [discriminate|].
  destruct (String.eqb_spec x "") as [-> | N].
  - intros [= ->]. exists []. split; [reflexivity | tauto].
  - intros H. destruct (IH rest H) as [pre [-> P]].
    exists (x :: pre). split; [reflexivity|].
    simpl. intros [E | I]; [now apply N | now apply P].
Qed.

(** [manage_filters] as [menu] sees it. *)
Lemma manage_filters_result (stdin : list string) (d : DataSet) (out : string) :
  exists zs' out' pre rest r,
    manage_filters stdin (mkWorld d out) = (mkWorld (with_zips d zs') out', rest, r)
    /\ PyDict.keys zs' = PyDict.keys (_zips d)
    /\ (r = Done tt \/ r = EndOfInput)
    /\ stdin = (pre ++ rest)%list.
Proof.
  rewrite manage_filters_run. destruct (_zips d) as [|kv zs] eqn:Hz.
  - exists (_zips d), (out ++ notice), [], stdin, (Done tt).
    rewrite with_zips_same, Hz. repeat split; auto.
  - destruct (filters_loop_result stdin d
                (out ++ "The following labels are in the dataset:" ++ nl))
      as (zs' & out' & E & K).
    rewrite Hz in K.
    destruct (after_first_empty stdin) as [rest|] eqn:A.
    + destruct (after_first_empty_suffix _ A) as [pre [-> _]].
      exists zs', out', (pre ++ [""])%list, rest, (Done tt).
      rewrite E. repeat split; auto. now rewrite <- app_assoc.
    + exists zs', out', stdin, [], EndOfInput.
      rewrite E. repeat split; auto. now rewrite app_nil_r.
Qed.

Lemma print_menu_run (d : DataSet) (out : string) :
  Console.print_menu (mkWorld d out) = (mkWorld d (out ++ menu_text), Return tt).
Proof.
  unfold Console.print_menu, bind, print, menu_text. cbn [self stdout].
  now rewrite !append_assoc.
Qed.

(** One turn of the loop of [menu]. *)
Lemma menu_loop_turn (fuel : nat) (d : DataSet) (out : string)
    (stdin : list string) :
  menu_loop (S fuel) stdin (mkWorld d out)
  = match stdin with
    | [] => Some (mkWorld d (menu_asked d out), [], EndOfInput)
    | line :: rest =>
        match int_of_str line with
        | None =>
            menu_loop fuel rest
              (mkWorld d (menu_asked d out ++ "Please enter a number only. " ++ nl))
        | Some c =>
            if (c =? 4)%Z then
              match manage_filters rest (mkWorld d (menu_asked d out)) with
              | (w, rest', Done _) => menu_loop fuel rest' w
              | (w, rest', Uncaught e) => Some (w, rest', Uncaught e)
              | (w, rest', EndOfInput) => Some (w, rest', EndOfInput)
              | (w, rest', ReadError f) => Some (w, rest', ReadError f)
              end
            else if (c =? 1)%Z then
              menu_loop fuel rest
                (mkWorld d (menu_asked d out ++ display_text d AVG))
            else if (c =? 2)%Z then
              menu_loop fuel rest
                (mkWorld d (menu_asked d out ++ display_text d MIN))
            else if (c =? 3)%Z then
              menu_loop fuel rest
                (mkWorld d (menu_asked d out ++ display_text d MAX))
            else if (c =? 5)%Z then
              match data_file with
              | Readable data_list =>
                  menu_loop fuel rest
                    (mkWorld (reloaded set_iteration d data_list)
                       (menu_asked d out
                        ++ string_of_nat (List.length data_list)
                        ++ " lines loaded" ++ nl))
              | Unreadable f =>
                  Some (mkWorld d (menu_asked d out), rest, ReadError f)
              end
            else if (c =? 9)%Z then
              Some (mkWorld d (menu_asked d out ++ goodbye), rest, Done tt)
            else
              menu_loop fuel rest
                (mkWorld d
                   (menu_asked d out ++ "That's not a valid selection. " ++ nl))
        end
    end.
Proof.
  cbn [Console.menu_loop]. rewrite say_run.
  unfold DataSetClass.header, bind, get_self, ret. cbn [self fst snd Console.calling].
  rewrite say_run, print_menu_run. cbn [Console.calling]. rewrite say_run.
  assert (E : ((out ++ "" ++ nl) ++ _header d ++ nl) ++ menu_text
              = out ++ nl ++ _header d ++ nl ++ menu_text).
  { now rewrite !append_assoc. }
  assert (E' : (((out ++ "" ++ nl) ++ _header d ++ nl) ++ menu_text)
               ++ "What is your choice? " ++ ""
               = menu_asked d out).
  { unfold menu_asked. now rewrite E, append_nil_r, !append_assoc. }
  rewrite E'. clear E E'.
  destruct stdin as [|line rest]; [reflexivity|].
  destruct (int_of_str line) as [c|]; [|now rewrite say_run].
  destruct (c =? 4)%Z; [reflexivity|].
  destruct (c =? 1)%Z; [now rewrite display_cross_table_run|].
  destruct (c =? 2)%Z; [now rewrite display_cross_table_run|].
  destruct (c =? 3)%Z; [now rewrite display_cross_table_run|].
  destruct (c =? 5)%Z.
  { destruct data_file as [data_list|f]; [now rewrite load_file_run|].
    reflexivity. }
  destruct (c =? 9)%Z; [reflexivity|].
  now rewrite say_run.
Qed.

Local Abbreviation menu_ending := (menu_ending_with int_of_str data_file).

Lemma menu_ending_later (line : string) (stdin : list string) (out' : string)
    (r : reply unit) :
  menu_ending stdin out' r -> menu_ending (line :: stdin) out' r.
Proof.
  intros [R | [(R & [l [I L]] & O) | (f & R & U & [l [I L]])]].
  - now left.
  - right; left. split; [exact R|]. split; [|exact O].
    exists l. split; [now right | exact L].
  - right; right. exists f. split; [exact R|]. split; [exact U|].
    exists l. split; [now right | exact L].
Qed.

Lemma menu_ending_suffix (pre stdin : list string) (out' : string)
    (r : reply unit) :
  menu_ending stdin out' r -> menu_ending (pre ++ stdin) out' r.
Proof.
  induction pre as [|x pre IH]; intros H; [exact H|].
  simpl. apply menu_ending_later. now apply IH.
Qed.

(** What a run of the loop amounts to, when there are more turns allowed
    than lines to read. *)
Lemma menu_loop_result (fuel : nat) :
  forall (stdin : list string) (d : DataSet) (out : string),
    (List.length stdin < fuel)%nat ->
    exists d' out' rest r,
      menu_loop fuel stdin (mkWorld d out) = Some (mkWorld d' out', rest, r)
      /\ menu_ending stdin out' r
      /\ _header d' = _header d
      /\ (_data d' = _data d
          \/ exists data_list,
               data_file = Readable data_list /\ _data d' = Some data_list)
      /\ (NoDup (PyDict.keys (_zips d)) -> NoDup (PyDict.keys (_zips d')))
      /\ exists pre, stdin = (pre ++ rest)%list.
Proof.
  induction fuel as [|fuel IH]; intros stdin d out F; [lia|].
  rewrite menu_loop_turn.
  destruct stdin as [|line rest].
  { exists d, (menu_asked d out), [], EndOfInput.
    repeat split; auto; [now left | now exists []]. }
  simpl in F.
  assert (Step : forall d1 out1,
             _header d1 = _header d ->
             (_data d1 = _data d
              \/ exists data_list,
                   data_file = Readable data_list
                   /\ _data d1 = Some data_list) ->
             (NoDup (PyDict.keys (_zips d)) -> NoDup (PyDict.keys (_zips d1))) ->
             exists d' out' rest' r,
               menu_loop fuel rest (mkWorld d1 out1)
               = Some (mkWorld d' out', rest', r)
               /\ menu_ending (line :: rest) out' r
               /\ _header d' = _header d
               /\ (_data d' = _data d
                   \/ exists data_list,
                        data_file = Readable data_list
                        /\ _data d' = Some data_list)
               /\ (NoDup (PyDict.keys (_zips d)) ->
                   NoDup (PyDict.keys (_zips d')))
               /\ exists pre, (line :: rest) = (pre ++ rest')%list).
  { intros d1 out1 H1 D1 N1.
    destruct (IH rest d1 out1 ltac:(lia))
      as (d' & out' & rest' & r & E & R & H & D & N & [pre P]).
    exists d', out', rest', r. split; [exact E|].
    split; [now apply menu_ending_later|].
    split; [congruence|].
    split.
    { destruct D as [D | D]; [|now right].
      destruct D1 as [D1 | (rows & U & D1)]; [left; congruence | right].
      exists rows. split; [exact U | congruence]. }
    split; [auto|].
    exists (line :: pre). now rewrite P. }
  destruct (int_of_str line) as [c|] eqn:I; [|now apply Step; auto].
  destruct (c =? 4)%Z.
  { destruct (manage_filters_result rest d (menu_asked d out))
      as (zs' & out1 & pre & rest1 & r1 & E & K & R & P).
    rewrite E.
    assert (F1 : (List.length rest1 < fuel)%nat).
    { rewrite P, length_app in F. lia. }
    destruct R as [-> | ->].
    - destruct (IH rest1 (with_zips d zs') out1 F1)
        as (d' & out' & rest' & r & E' & R & H & D & N & [pre' P']).
      exists d', out', rest', r. split; [exact E'|].
      split.
      { apply menu_ending_later. rewrite P. now apply menu_ending_suffix. }
      split; [exact H|]. split; [exact D|].
      split.
      { intros N0. apply N. cbn [with_zips _zips]. now rewrite K. }
      exists (line :: pre ++ pre')%list. rewrite P, P'. simpl.
      now rewrite app_assoc.
    - exists (with_zips d zs'), out1, rest1, EndOfInput.
      split; [reflexivity|]. split; [now left|].
      split; [reflexivity|]. split; [now left|].
      split.
      { intros N0. cbn [with_zips _zips]. now rewrite K. }
      exists (line :: pre). now rewrite P. }
  destruct (c =? 1)%Z; [now apply Step; auto|].
  destruct (c =? 2)%Z; [now apply Step; auto|].
  destruct (c =? 3)%Z; [now apply Step; auto|].
  destruct (c =? 5)%Z eqn:C5.
  { apply Z.eqb_eq in C5. subst c.
    pose proof (eq_refl data_file) as U. revert U.
    generalize data_file at 1 3.
    intros [data_list|f] U.
    - apply Step; [reflexivity | right; now exists data_list |].
      intros _. unfold reloaded. cbn [_zips]. unfold PyDict.keys.
      rewrite map_map. cbn [fst]. rewrite map_id. apply distinct_NoDup.
    - exists d, (menu_asked d out), rest, (ReadError f).
      split; [reflexivity|].
      split.
      { right; right. exists f. split; [reflexivity|]. split; [now symmetry|].
        exists line. split; [now left | exact I]. }
      repeat split; auto. now exists [line]. }
  destruct (c =? 9)%Z eqn:C9; [|now apply Step; auto].
  apply Z.eqb_eq in C9. subst c.
  exists d, (menu_asked d out ++ goodbye), rest, (Done tt).
  split; [reflexivity|].
  split.
  { right; left. split; [reflexivity|]. split.
    - exists line. split; [now left | exact I].
    - now exists (menu_asked d out). }
  repeat split; auto. now exists [line].
Qed.


(** X7: a run of [menu] never changes the header; the readings it leaves
    are those it found or the rows of the data file; and [zip_states] stays a
    dictionary (no zip code twice). *)
Theorem menu_keeps_header :
  forall (stdin rest : list string) (w w' : world) (r : reply unit),
    menu stdin w = Some (w', rest, r) ->
    _header (self w') = _header (self w)
    /\ (_data (self w') = _data (self w)
        \/ exists data_list,
             data_file = Readable data_list
             /\ _data (self w') = Some data_list)
    /\ (NoDup (PyDict.keys (_zips (self w))) ->
        NoDup (PyDict.keys (_zips (self w')))).
Proof.
  intros stdin rest [d out] w' r. unfold Console.menu.
  destruct (@menu_loop_result (S (List.length stdin)) stdin d out ltac:(lia))
    as (d' & out' & rest' & r' & E & _ & H & D & N & _).
  rewrite E. intros [= <- _ _]. cbn [self]. auto.
Qed.

(** X8: [menu] returns only after the choice 9 was typed, and the last
    thing it writes is then the farewell; the lines it leaves unread are the
    end of those it was given. *)
Theorem menu_returns_on_nine :
  forall (stdin rest : list string) (w w' : world),
    menu stdin w = Some (w', rest, Done tt) ->
    (exists line, In line stdin /\ int_of_str line = Some 9%Z)
    /\ (exists o, stdout w' = o ++ goodbye)
    /\ exists pre, stdin = (pre ++ rest)%list.
Proof.
  intros stdin rest [d out] w'. unfold Console.menu.
  destruct (@menu_loop_result (S (List.length stdin)) stdin d out ltac:(lia))
    as (d' & out' & rest' & r' & E & R & _ & _ & _ & P).
  rewrite E. intros [= <- <- ->]. cbn [stdout].
  destruct R as [R | [(_ & L & O) | (f & R & _)]]; [discriminate | | discriminate].
  auto.
Qed.

(** ** main *)

Lemma header_loop_accepts (pre : list string) :
  forall (h : string) (rest : list string) (d : DataSet) (out : string),
    Forall too_long pre ->
    (String.length h <= 30)%nat ->
    Console.header_loop (pre ++ h :: rest) (mkWorld d out)
    = (mkWorld (with_header d h)
         (out ++ String.concat ""
                   (map (fun _ : string =>
                           "Enter a header for the menu: "
                           ++ Console.header_too_long ++ nl) pre)
              ++ "Enter a header for the menu: "),
       rest, Done tt).
Proof.
  induction pre as [|x pre IH]; intros h rest d out F H.
  - cbn [app Console.header_loop map]. rewrite say_run, set_header_run.
    apply Nat.leb_le in H. rewrite H. now rewrite append_nil_r.
  - inversion F as [|? ? X F']; subst. unfold too_long in X.
    cbn [app Console.header_loop map]. rewrite say_run, set_header_run.
    replace (String.length x <=? 30)%nat with false
      by (symmetry; apply Nat.leb_gt; exact X).
    cbn [exn_eqb]. rewrite say_run, IH by assumption.
    rewrite concat_empty_cons. now rewrite !append_assoc.
Qed.

Lemma header_loop_refuses (stdin : list string) :
  forall (d : DataSet) (out : string),
    Forall too_long stdin ->
    exists out',
      Console.header_loop stdin (mkWorld d out) = (mkWorld d out', [], EndOfInput).
Proof.
  induction stdin as [|x stdin IH]; intros d out F.
  - eexists. reflexivity.
  - inversion F as [|? ? X F']; subst. unfold too_long in X.
    cbn [Console.header_loop]. rewrite say_run, set_header_run.
    replace (String.length x <=? 30)%nat with false
      by (symmetry; apply Nat.leb_gt; exact X).
    cbn [exn_eqb]. rewrite say_run. now apply IH.
Qed.

Lemma first_fitting_line (stdin : list string) :
  Forall too_long stdin
  \/ exists pre h rest,
       stdin = (pre ++ h :: rest)%list
       /\ Forall too_long pre /\ (String.length h <= 30)%nat.
Proof.
  induction stdin as [|x stdin IH].
  - left. constructor.
  - destruct (Nat.leb_spec (String.length x) 30) as [L | G].
    + right. exists [], x, stdin. repeat split; auto.
    + destruct IH as [F | (pre & h & rest & -> & F & H)].
      * left. now constructor.
      * right. exists (x :: pre), h, rest. repeat split; auto.
Qed.

(** X9: [main] keeps asking for a header until a line of at most 30
    characters comes; each longer line is answered by the complaint; the
    first line that fits becomes the header, and [menu] takes over with the
    lines after it. *)
Theorem main_takes_first_fitting_header :
  forall (name h : string) (refused rest : list string),
    Forall too_long refused ->
    (String.length h <= 30)%nat ->
    main (name :: refused ++ h :: rest)
    = menu rest
        (mkWorld (with_header (__init__ "") h)
           (header_asked name refused ++ nl)).
Proof.
  intros name h refused rest F H. unfold Console.main.
  rewrite !say_run. cbn [stdout].
  rewrite (@header_loop_accepts refused h rest _ _ F H).
  rewrite say_run. unfold header_asked. do 2 f_equal.
  now rewrite !append_assoc.
Qed.

(** X10: a run of [main], whatever is typed, ends by a return, by the end
    of the input, or (after the choice 5) by the exception of a file that
    cannot be read; and the dataset it leaves has a header of at most 30
    characters. *)
Theorem main_header_never_long :
  forall stdin : list string,
    exists w' rest r,
      main stdin = Some (w', rest, r)
      /\ (r = Done tt
          \/ r = EndOfInput
          \/ exists f,
               r = ReadError f /\ data_file = Unreadable f
               /\ exists line, In line stdin /\ int_of_str line = Some 5%Z)
      /\ (String.length (_header (self w')) <= 30)%nat.
Proof.
  intros [|name stdin].
  - eexists _, _, _. split; [reflexivity|].
    split; [right; now left|]. simpl. lia.
  - destruct (first_fitting_line stdin) as [F | (pre & h & rest & -> & F & H)].
    + unfold Console.main. rewrite !say_run. cbn [stdout].
      match goal with
      | |- context [Console.header_loop stdin (mkWorld ?d ?o)] =>
          destruct (@header_loop_refuses stdin d o F) as [out' E]
      end.
      rewrite E. eexists _, _, _. split; [reflexivity|].
      split; [right; now left|]. simpl. lia.
    + unfold Console.main. rewrite !say_run. cbn [stdout].
      rewrite (@header_loop_accepts pre h rest _ _ F H). rewrite say_run.
      unfold Console.menu.
      match goal with
      | |- context [menu_loop ?f rest (mkWorld ?d ?o)] =>
          destruct (@menu_loop_result f rest d o ltac:(lia))
            as (d' & out' & rest' & r & E & R & Hh & _)
      end.
      exists (mkWorld d' out'), rest', r. split; [exact E|].
      split.
      * destruct R as [R | [[R _] | (f & R & U & [l [I L]])]];
          [right; now left | now left | right; right].
        exists f. split; [exact R|]. split; [exact U|].
        exists l. split; [|exact L].
        right. apply in_or_app. right. now right.
      * cbn [self]. rewrite Hh. exact H.
Qed.

End ConsoleFacts.

(** The console theorems on a session with the sample data, numbers being
    read as plain decimal numerals. *)

Lemma filters_answer_toggles_nth_default :
  Console.filters_loop decimal_int ["2"; ""] (mkWorld (loaded default_data) "")
  = Console.filters_loop decimal_int [""]
      (mkWorld
         (with_zips (loaded default_data)
            (flip_at (Z.to_nat (2 - 1)) (_zips (loaded default_data))))
         (asked (loaded default_data) "")).
Proof.
  apply (@filters_answer_toggles_nth decimal_int (loaded default_data) ""
           "2" [""] 2%Z).
  - change (NoDup ["12345"; "94022"; "94040"]).
    repeat (constructor; [simpl; intuition discriminate|]). constructor.
  - discriminate.
  - reflexivity.
  - simpl. lia.
Defined.

Lemma filters_answer_zero_toggles_last_default :
  Console.filters_loop decimal_int ["0"; ""] (mkWorld (loaded default_data) "")
  = Console.filters_loop decimal_int [""]
      (mkWorld
         (with_zips (loaded default_data)
            (flip_at
               (List.length (_zips (loaded default_data)) - 1 - Z.to_nat (- 0))
               (_zips (loaded default_data))))
         (asked (loaded default_data) "")).
Proof.
  apply (@filters_answer_zero_toggles_last decimal_int (loaded default_data) ""
           "0" [""] 0%Z).
  - change (NoDup ["12345"; "94022"; "94040"]).
    repeat (constructor; [simpl; intuition discriminate|]). constructor.
  - discriminate.
  - reflexivity.
  - simpl. lia.
Defined.

Lemma filters_answer_refused_default :
  Console.filters_loop decimal_int ["abc"; ""] (mkWorld (loaded default_data) "")
  = Console.filters_loop decimal_int [""]
      (mkWorld (loaded default_data)
         (asked (loaded default_data) "" ++ not_a_number ++ nl))
  /\ Console.filters_loop decimal_int ["7"; ""] (mkWorld (loaded default_data) "")
     = Console.filters_loop decimal_int [""]
         (mkWorld (loaded default_data)
            (asked (loaded default_data) "" ++ not_in_list ++ nl)).
Proof.
  split.
  - apply (proj1 (@filters_answer_refused decimal_int (loaded default_data) ""
                    "abc" [""] ltac:(discriminate))).
    reflexivity.
  - apply (proj2 (@filters_answer_refused decimal_int (loaded default_data) ""
                    "7" [""] ltac:(discriminate)) 7%Z).
    + reflexivity.
    + left. simpl. lia.
Defined.

Lemma menu_keeps_header_default :
  exists w' rest r,
    Console.menu decimal_int distinct (Readable default_data) ["5"; "4"; "2"; ""; "9"; "1"]
      (mkWorld (__init__ "CLEAN AIR 2022") "")
    = Some (w', rest, r)
    /\ _header (self w') = "CLEAN AIR 2022"
    /\ (_data (self w') = None
        \/ exists data_list,
             Readable default_data = Readable data_list
             /\ _data (self w') = Some data_list)
    /\ (NoDup (@nil string) -> NoDup (PyDict.keys (_zips (self w')))).
Proof.
  destruct (Console.menu decimal_int distinct (Readable default_data)
              ["5"; "4"; "2"; ""; "9"; "1"]
              (mkWorld (__init__ "CLEAN AIR 2022") ""))
    as [[[w' rest] r]|] eqn:E.
  - exists w', rest, r. split; [reflexivity|].
    exact (@menu_keeps_header decimal_int distinct (Readable default_data) _ _ _ _ _ E).
  - vm_compute in E. discriminate E.
Defined.

Lemma menu_returns_on_nine_default :
  exists w' rest,
    Console.menu decimal_int distinct (Readable default_data) ["5"; "x"; "9"; "1"]
      (mkWorld (__init__ "CLEAN AIR 2022") "")
    = Some (w', rest, Done tt)
    /\ (exists line, In line ["5"; "x"; "9"; "1"]
                     /\ decimal_int line = Some 9%Z)
    /\ (exists o, stdout w' = o ++ goodbye)
    /\ exists pre, ["5"; "x"; "9"; "1"] = (pre ++ rest)%list.
Proof.
  destruct (Console.menu decimal_int distinct (Readable default_data) ["5"; "x"; "9"; "1"]
              (mkWorld (__init__ "CLEAN AIR 2022") ""))
    as [[[w' rest] [[]|e| |f]]|] eqn:E;
    try (vm_compute in E; discriminate E).
  exists w', rest. split; [reflexivity|].
  exact (@menu_returns_on_nine decimal_int distinct (Readable default_data) _ _ _ _ E).
Defined.

Lemma main_takes_first_fitting_header_default :
  Console.main decimal_int distinct (Readable default_data)
    ("Audrey" :: [long_header] ++ "CLEAN AIR 2022" :: ["5"; "9"])
  = Console.menu decimal_int distinct (Readable default_data) ["5"; "9"]
      (mkWorld (with_header (__init__ "") "CLEAN AIR 2022")
         (header_asked "Audrey" [long_header] ++ nl)).
Proof.
  apply (@main_takes_first_fitting_header decimal_int distinct (Readable default_data)
           "Audrey" "CLEAN AIR 2022" [long_header] ["5"; "9"]).
  - repeat constructor.
  - simpl. lia.
Defined.

(** A file that cannot be read: the choice 5 ends [menu] with the
    exception, before anything is stored or written, and the lines after it
    stay unread. *)
Example menu_stops_on_unreadable_file :
  Console.menu decimal_int distinct (Unreadable NotAFloat) ["1"; "5"; "9"]
    (mkWorld (__init__ "") "")
  = Some (mkWorld (__init__ "")
            (menu_asked (__init__ "") (menu_asked (__init__ "") "" ++ notice)),
          ["9"], ReadError NotAFloat).
Proof. vm_compute. reflexivity. Qed.

(** * Beyond the claims: the class *)

(** ** Loading *)

Lemma get_all_true (l : list string) (k : string) :
  In k l -> PyDict.get (map (fun z => (z, true)) l) k = Some true.
Proof.
  induction l as [|x l IH]; simpl; [tauto|].
  destruct (String.eqb_spec x k) as [-> | N]; [reflexivity|].
  intros [E | H]; [contradiction | now apply IH].
Qed.

(** X11: when sets are iterated without repetition and without loss, a load
    leaves every reading with its time label among the time labels and its
    zip code switched on in [zip_states]; the time labels are those of the
    readings, each once. *)
Theorem load_file_labels_cover_readings :
  forall (set_iteration : list string -> list string) (w : world)
         (data_list : list reading),
    (forall l x, In x (set_iteration l) <-> In x l) ->
    (forall l, NoDup (set_iteration l)) ->
    (forall r, In r data_list ->
       In (item1 r) (_times (self (fst (load_file set_iteration data_list w))))
       /\ PyDict.get (_zips (self (fst (load_file set_iteration data_list w))))
            (item0 r) = Some true)
    /\ NoDup (_times (self (fst (load_file set_iteration data_list w))))
    /\ (forall t,
          In t (_times (self (fst (load_file set_iteration data_list w)))) ->
          exists r, In r data_list /\ item1 r = t).
Proof.
  intros si [d out] rows Hin Hnd. rewrite load_file_run.
  cbn [fst self _times _zips]. split; [|split].
  - intros r Hr. split.
    + apply Hin. now apply in_map.
    + apply get_all_true. apply distinct_In. now apply in_map.
  - apply Hnd.
  - intros t Ht. apply (proj1 (Hin _ _)) in Ht. apply in_map_iff in Ht.
    destruct Ht as [r [E H]]. now exists r.
Qed.

Lemma load_file_labels_cover_readings_default :
  (forall r, In r default_data ->
     In (item1 r) (_times (self (fst (load_file distinct default_data
                                        (mkWorld (__init__ "") "")))))
     /\ PyDict.get (_zips (self (fst (load_file distinct default_data
                                        (mkWorld (__init__ "") "")))))
          (item0 r) = Some true)
  /\ NoDup (_times (self (fst (load_file distinct default_data
                                 (mkWorld (__init__ "") "")))))
  /\ (forall t,
        In t (_times (self (fst (load_file distinct default_data
                                   (mkWorld (__init__ "") ""))))) ->
        exists r, In r default_data /\ item1 r = t).
Proof.
  apply (@load_file_labels_cover_readings distinct (mkWorld (__init__ "") "")
           default_data).
  - intros l x. apply distinct_In.
  - apply distinct_NoDup.
Defined.

(** X12: a load keeps the header, writes the number of rows, and makes the
    rest of the dataset a function of the rows alone: what was loaded or
    toggled before leaves no trace. *)
Theorem load_file_forgets_the_past :
  forall (set_iteration : list string -> list string) (w1 w2 : world)
         (data_list : list reading),
    _header (self w1) = _header (self w2) ->
    self (fst (load_file set_iteration data_list w1))
    = self (fst (load_file set_iteration data_list w2))
    /\ _header (self (fst (load_file set_iteration data_list w1)))
       = _header (self w1)
    /\ stdout (fst (load_file set_iteration data_list w1))
       = stdout w1 ++ string_of_nat (List.length data_list)
         ++ " lines loaded" ++ nl.
Proof.
  intros si [d1 o1] [d2 o2] rows H. cbn [self] in H.
  rewrite !load_file_run. cbn [fst self stdout _header]. now rewrite H.
Qed.

Lemma load_file_forgets_the_past_default :
  self (fst (load_file distinct default_data
               (mkWorld (loaded three_tenths) "")))
  = self (fst (load_file distinct default_data (mkWorld (__init__ "") "")))
  /\ _header (self (fst (load_file distinct default_data
                           (mkWorld (loaded three_tenths) ""))))
     = _header (loaded three_tenths)
  /\ stdout (fst (load_file distinct default_data
                    (mkWorld (loaded three_tenths) "")))
     = "" ++ string_of_nat (List.length default_data) ++ " lines loaded" ++ nl.
Proof.
  apply (@load_file_forgets_the_past distinct
           (mkWorld (loaded three_tenths) "") (mkWorld (__init__ "") "")
           default_data).
  reflexivity.
Defined.

(** ** Toggling *)

Lemma set_set_comm (V : Type) (d : PyDict.dict V) (a b : string) (x y : V) :
  a <> b ->
  In a (PyDict.keys d) -> In b (PyDict.keys d) ->
  PyDict.set (PyDict.set d a x) b y = PyDict.set (PyDict.set d b y) a x.
Proof.
  intros N. induction d as [|[k v] d IH]; simpl; [tauto|].
  intros Ha Hb.
  destruct (String.eqb_spec k a) as [Ea | Na];
    destruct (String.eqb_spec k b) as [Eb | Nb]; simpl.
  - congruence.
  - destruct (String.eqb_spec k a); [|contradiction].
    destruct (String.eqb_spec k b); [contradiction | reflexivity].
  - destruct (String.eqb_spec k a); [contradiction|].
    destruct (String.eqb_spec k b); [reflexivity | contradiction].
  - destruct (String.eqb_spec k a); [contradiction|].
    destruct (String.eqb_spec k b); [contradiction|].
    f_equal. apply IH; tauto.
Qed.

(** X13: toggling two different zip codes of [zip_states] gives the same
    dataset in either order. *)
Theorem toggle_zip_commutes :
  forall (d : DataSet) (out a b : string),
    a <> b ->
    In a (PyDict.keys (_zips d)) ->
    In b (PyDict.keys (_zips d)) ->
    (toggle_zip a ;;; toggle_zip b) (mkWorld d out)
    = (toggle_zip b ;;; toggle_zip a) (mkWorld d out)
    /\ snd ((toggle_zip a ;;; toggle_zip b) (mkWorld d out)) = Return tt.
Proof.
  intros d out a b N Ha Hb. unfold bind. rewrite !toggle_zip_run.
  pose proof Ha as Ca. pose proof Hb as Cb.
  rewrite <- contains_In in Ca, Cb. unfold PyDict.contains in Ca, Cb.
  destruct (PyDict.get (_zips d) a) as [va|] eqn:Ga; [|discriminate].
  destruct (PyDict.get (_zips d) b) as [vb|] eqn:Gb; [|discriminate].
  rewrite !toggle_zip_run. cbn [with_zips _zips].
  rewrite (get_set_other _ _ (not_eq_sym N)), Gb.
  rewrite (get_set_other _ _ N), Ga.
  cbn [_data _header _times snd].
  rewrite (@set_set_comm _ (_zips d) a b (negb va) (negb vb) N Ha Hb).
  split; reflexivity.
Qed.

Lemma toggle_zip_commutes_default :
  (toggle_zip "94022" ;;; toggle_zip "12345") (mkWorld (loaded default_data) "")
  = (toggle_zip "12345" ;;; toggle_zip "94022") (mkWorld (loaded default_data) "")
  /\ snd ((toggle_zip "94022" ;;; toggle_zip "12345")
            (mkWorld (loaded default_data) "")) = Return tt.
Proof.
  apply (@toggle_zip_commutes (loaded default_data) "" "94022" "12345").
  - discriminate.
  - simpl. tauto.
  - simpl. tauto.
Defined.

(** ** Hiding a zip code *)

Lemma filter_other_absent (z : string) (l : list string) :
  ~ In z l -> filter (fun k => negb (String.eqb k z)) l = l.
Proof.
  induction l as [|k l IH]; simpl; [reflexivity|].
  intros N. destruct (String.eqb_spec k z) as [-> | D]; [tauto|].
  simpl. f_equal. apply IH. tauto.
Qed.

Lemma active_after_switch_off (zs : PyDict.dict bool) (z : string) :
  NoDup (PyDict.keys zs) ->
  PyDict.get zs z = Some true ->
  map fst (filter (fun kv => snd kv) (PyDict.set zs z false))
  = filter (fun k => negb (String.eqb k z))
      (map fst (filter (fun kv => snd kv) zs)).
Proof.
  induction zs as [|[k v] zs IH]; simpl; [discriminate|].
  intros N G. inversion N as [|? ? N0 N']; subst.
  destruct (String.eqb_spec k z) as [-> | D].
  - inversion G; subst. simpl. rewrite String.eqb_refl. simpl.
    rewrite filter_other_absent; [reflexivity|].
    intros I. apply N0. apply in_map_iff in I. destruct I as [kv [E I]].
    apply filter_In in I. unfold PyDict.keys. apply in_map_iff.
    exists kv. tauto.
  - simpl. destruct v; simpl.
    + destruct (String.eqb_spec k z); [contradiction|]. simpl.
      f_equal. now apply IH.
    + now apply IH.
Qed.

Lemma cell_of_data_times (d d' : DataSet) (stat : Stats) (z t : string) :
  _data d' = _data d -> cell_of d' stat z t = cell_of d stat z t.
Proof.
  intros E. unfold cell_of. now rewrite !statistics_for_eq, E.
Qed.

Lemma filter_rows_map (A : Type) (f : string -> A) (p : string -> bool)
    (l : list string) :
  filter (fun r => p (fst r)) (map (fun z => (z, f z)) l)
  = map (fun z => (z, f z)) (filter p l).
Proof.
  induction l as [|x l IH]; simpl; [reflexivity|].
  destruct (p x); simpl; now rewrite IH.
Qed.

(** X14: switching off a zip code that is on and displaying the table
    shows the table of before without the row of that zip code: the columns
    and the other rows, with their order and their cells, are the same. *)
Theorem toggled_off_zip_loses_its_row :
  forall (d : DataSet) (out z : string) (stat : Stats) (rs : list reading),
    _data d = Some rs -> rs <> [] ->
    NoDup (PyDict.keys (_zips d)) ->
    PyDict.get (_zips d) z = Some true ->
    snd ((toggle_zip z ;;; display_cross_table stat) (mkWorld d out)) = Return tt
    /\ stdout (fst ((toggle_zip z ;;; display_cross_table stat) (mkWorld d out)))
       = out ++ render_table
                  (mkTable (columns (table_of d stat))
                     (filter (fun r => negb (String.eqb (fst r) z))
                        (rows (table_of d stat)))).
Proof.
  intros d out z stat rs Hd Hrs N G. unfold bind.
  rewrite toggle_zip_run, G, display_cross_table_run. cbn [negb fst snd stdout].
  split; [reflexivity|].
  cbn [with_zips _data]. rewrite Hd.
  destruct rs as [|r rs']; [congruence|]. cbn [truthy]. f_equal. f_equal.
  rewrite filtered_keys_active.
  2:{ cbn [with_zips _zips]. rewrite keys_set_present; [exact N|].
      apply contains_In. unfold PyDict.contains. now rewrite G. }
  unfold table_of, table_with_rows, active_zips.
  cbn [with_zips _zips _times columns rows].
  rewrite (@active_after_switch_off (_zips d) z N G).
  rewrite (@filter_rows_map _
             (fun z0 => map (cell_of d stat z0) (_times d))
             (fun k => negb (String.eqb k z))).
  f_equal. apply map_ext. intros k. f_equal. apply map_ext. intros t.
  now apply cell_of_data_times.
Qed.

Lemma toggled_off_zip_loses_its_row_default :
  snd ((toggle_zip "94022" ;;; display_cross_table AVG)
         (mkWorld (loaded default_data) "")) = Return tt
  /\ stdout (fst ((toggle_zip "94022" ;;; display_cross_table AVG)
                    (mkWorld (loaded default_data) "")))
     = "" ++ render_table
               (mkTable (columns (table_of (loaded default_data) AVG))
                  (filter (fun r => negb (String.eqb (fst r) "94022"))
                     (rows (table_of (loaded default_data) AVG)))).
Proof.
  apply (@toggled_off_zip_loses_its_row (loaded default_data) "" "94022" AVG
           default_data).
  - reflexivity.
  - discriminate.
  - change (NoDup ["12345"; "94022"; "94040"]).
    repeat (constructor; [simpl; intuition discriminate|]). constructor.
  - reflexivity.
Defined.

(** ** The earlier revision *)

(** X15: in the earlier revision the constructor passes the header through
    the setter: with at most 30 characters it builds the same object as the
    constructor of today, with more it raises [ValueError] and builds
    nothing. *)
Theorem sample_constructor_validates_header :
  forall h : string,
    ((String.length h <= 30)%nat ->
     Sample.__init__ h = Return (DataSetClass.__init__ h))
    /\ ((30 < String.length h)%nat -> Sample.__init__ h = Raise ValueError).
Proof.
  intros h. unfold Sample.__init__. rewrite set_header_run. split; intros H.
  - apply Nat.leb_le in H. now rewrite H.
  - apply Nat.leb_gt in H. now rewrite H.
Qed.

Lemma sample_constructor_validates_header_default :
  Sample.__init__ "CLEAN AIR 2022" = Return (DataSetClass.__init__ "CLEAN AIR 2022")
  /\ Sample.__init__ long_header = Raise ValueError.
Proof.
  split.
  - apply (proj1 (sample_constructor_validates_header "CLEAN AIR 2022")).
    simpl. lia.
  - apply (proj2 (sample_constructor_validates_header long_header)).
    simpl. lia.
Defined.

(** ** The layout of the table *)

Lemma concat_fixed_length (w : nat) (l : list string) :
  Forall (fun s => String.length s = w) l ->
  String.length (String.concat "" l) = (w * List.length l)%nat.
Proof.
  induction l as [|s l IH]; intros F.
  - simpl. lia.
  - inversion F as [|? ? Hs F']; subst.
    rewrite concat_empty_cons, length_append, IH by assumption.
    cbn [List.length]. lia.
Qed.

Lemma nl_length : String.length nl = 1%nat.
Proof. reflexivity. Qed.

(** The lines of the text of a table have one length when the labels and
    the cells fit their fields. *)
Lemma render_table_aligned :
  forall (d : DataSet) (stat : Stats),
    Forall (fun t => (String.length t <= 10)%nat) (_times d) ->
    Forall (fun z => (String.length z <= 5)%nat) (active_zips d) ->
    (forall z t x,
       In z (active_zips d) -> In t (_times d) ->
       cell_of d stat z t = Number x ->
       (String.length (format_2f x) <= 10)%nat) ->
    String.length
      ("     " ++ String.concat "" (map (rjust 10) (_times d)) ++ nl)
    = (5 + 10 * List.length (_times d) + 1)%nat
    /\ Forall (fun r => String.length (render_row r)
                        = (5 + 10 * List.length (_times d) + 1)%nat)
         (rows (table_of d stat)).
Proof.
  intros d stat Ht Hz Hx. split.
  - rewrite !length_append, nl_length.
    rewrite (@concat_fixed_length 10).
    + rewrite length_map. simpl. lia.
    + apply Forall_map. eapply Forall_impl; [|exact Ht].
      intros t L. cbn beta in L. rewrite rjust_length. lia.
  - unfold table_of, table_with_rows. cbn [rows].
    apply Forall_map. apply Forall_forall. intros z Iz.
    unfold render_row. cbn [fst snd].
    rewrite !length_append, nl_length, ljust_length.
    rewrite (@concat_fixed_length 10).
    + rewrite !length_map.
      rewrite Forall_forall in Hz. specialize (Hz z Iz). cbn beta in Hz. lia.
    + apply Forall_map. apply Forall_map. apply Forall_forall. intros t It.
      destruct (cell_of d stat z t) as [x|] eqn:C.
      * unfold render_cell. rewrite rjust_length.
        specialize (Hx z t x Iz It C). lia.
      * reflexivity.
Qed.

Lemma ends_with_nl_assoc (a b : string) : exists body, a ++ b ++ nl = body ++ nl.
Proof. exists (a ++ b). now rewrite append_assoc. Qed.

(** X16: on a dataset with readings, when the time labels have at most 10
    characters, the active zip codes at most 5 and the numbers shown at most
    10, what [display_cross_table] writes is a heading line and one line per
    active zip code, each ended by a line end, and all of the same length
    [5 + 10 * columns + 1]: the columns are aligned. *)
Theorem displayed_lines_are_aligned :
  forall (d : DataSet) (out : string) (stat : Stats) (rs : list reading),
    _data d = Some rs -> rs <> [] ->
    NoDup (PyDict.keys (_zips d)) ->
    Forall (fun t => (String.length t <= 10)%nat) (_times d) ->
    Forall (fun z => (String.length z <= 5)%nat) (active_zips d) ->
    (forall z t x,
       In z (active_zips d) -> In t (_times d) ->
       cell_of d stat z t = Number x ->
       (String.length (format_2f x) <= 10)%nat) ->
    exists lines,
      display_cross_table stat (mkWorld d out)
      = (mkWorld d (out ++ String.concat "" lines), Return tt)
      /\ List.length lines = S (List.length (active_zips d))
      /\ Forall (fun l => String.length l
                          = (5 + 10 * List.length (_times d) + 1)%nat
                          /\ exists body, l = body ++ nl) lines.
Proof.
  intros d out stat rs Hd Hrs N Ht Hz Hx.
  destruct (@render_table_aligned d stat Ht Hz Hx) as [L F].
  exists (("     " ++ String.concat "" (map (rjust 10) (_times d)) ++ nl)
          :: map render_row (rows (table_of d stat))).
  split; [|split].
  - rewrite display_cross_table_run, Hd.
    destruct rs as [|r rs']; [congruence|]. cbn [truthy].
    rewrite (filtered_keys_active _ N). fold (table_of d stat).
    rewrite concat_empty_cons. unfold render_table.
    unfold table_of at 1, table_with_rows. cbn [columns].
    now rewrite !append_assoc.
  - cbn [List.length]. rewrite length_map. unfold table_of, table_with_rows.
    cbn [rows]. now rewrite length_map.
  - constructor.
    + split; [exact L | apply ends_with_nl_assoc].
    + apply Forall_map. rewrite Forall_forall in F.
      apply Forall_forall. intros r Ir. split.
      * apply F. exact Ir.
      * unfold render_row. apply ends_with_nl_assoc.
Qed.

Lemma displayed_lines_are_aligned_default :
  exists lines,
    display_cross_table MIN (mkWorld (loaded default_data) "")
    = (mkWorld (loaded default_data) ("" ++ String.concat "" lines), Return tt)
    /\ List.length lines = S (List.length (active_zips (loaded default_data)))
    /\ Forall (fun l => String.length l
                        = (5 + 10 * List.length (_times (loaded default_data))
                           + 1)%nat
                        /\ exists body, l = body ++ nl) lines.
Proof.
  apply (@displayed_lines_are_aligned (loaded default_data) "" MIN default_data).
  - reflexivity.
  - discriminate.
  - change (NoDup ["12345"; "94022"; "94040"]).
    repeat (constructor; [simpl; intuition discriminate|]). constructor.
  - repeat constructor.
  - repeat constructor.
  - intros z t x Iz It.
    change (In z ["12345"; "94022"; "94040"]) in Iz.
    change (In t ["Morning"; "Midday"; "Evening"]) in It.
    simpl in Iz, It.
    destruct Iz as [<- | [<- | [<- | []]]];
      destruct It as [<- | [<- | [<- | []]]];
      intros E; vm_compute in E; inversion E; subst;
      vm_compute; repeat constructor.
Defined.

(** ** The two decimals *)

Lemma div_half_even_nearest (n d : Z) :
  (0 < d)%Z ->
  (2 * Z.abs (div_half_even n d * d - n) <= d)%Z
  /\ ((2 * Z.abs (div_half_even n d * d - n) = d)%Z ->
      Z.even (div_half_even n d) = true).
Proof.
  intros D. unfold div_half_even.
  pose proof (Z.div_mod n d ltac:(lia)) as E.
  pose proof (Z.mod_pos_bound n d D) as B.
  set (q := (n / d)%Z) in *. set (r := (n mod d)%Z) in *.
  destruct (Z.compare_spec (2 * r) d) as [C | C | C].
  - destruct (Z.even q) eqn:V.
    + split; [nia | auto].
    + split; [nia|]. intros _. rewrite Z.even_add, V. reflexivity.
  - split; [nia|]. intros H. exfalso. nia.
  - split; [nia|]. intros H. exfalso. nia.
Qed.

Lemma hundredths_nearest (m : positive) (e : Z) :
  nearest_hundredths m e (hundredths m e).
Proof.
  unfold nearest_hundredths, hundredths. split; intros H.
  - apply Z.leb_le in H. rewrite H. lia.
  - replace (0 <=? e)%Z with false by (symmetry; apply Z.leb_gt; lia).
    assert (P : (0 < 2 ^ (- e))%Z) by (apply Z.pow_pos_nonneg; lia).
    replace (100 * Zpos m)%Z with (Zpos m * 100)%Z by lia.
    now apply div_half_even_nearest.
Qed.

Lemma hundredths_nonneg (m : positive) (e : Z) : (0 <= hundredths m e)%Z.
Proof.
  unfold hundredths. destruct (Z.leb_spec 0 e) as [P | N].
  - apply Z.mul_nonneg_nonneg; [lia|]. apply Z.pow_nonneg. lia.
  - assert (D : (0 < 2 ^ (- e))%Z) by (apply Z.pow_pos_nonneg; lia).
    unfold div_half_even.
    assert (Q : (0 <= Zpos m * 100 / 2 ^ (- e))%Z) by (apply Z.div_pos; lia).
    destruct (2 * ((Zpos m * 100) mod 2 ^ (- e)) ?= 2 ^ (- e))%Z;
      [destruct (Z.even _)|..]; lia.
Qed.

(** Reading back what [fixed2] writes. *)

Lemma before_point_numeral (u : Decimal.uint) (r : string) :
  before_point (NilEmpty.string_of_uint u ++ String "." r)
  = Some (NilEmpty.string_of_uint u, r).
Proof.
  induction u as [|u IH|u IH|u IH|u IH|u IH|u IH|u IH|u IH|u IH|u IH];
    [reflexivity|..]; simpl; rewrite IH; reflexivity.
Qed.

Lemma string_of_Z_read (n : Z) (r : string) :
  (0 <= n)%Z ->
  before_point (string_of_Z n ++ String "." r) = Some (string_of_Z n, r)
  /\ option_map (fun u => Z.of_N (N.of_uint u))
       (NilZero.uint_of_string (string_of_Z n)) = Some n.
Proof.
  intros H. unfold string_of_Z.
  assert (NN : N.to_uint (Z.to_N n) <> Decimal.Nil).
  { destruct (Z.to_N n) as [|p]; [discriminate|].
    apply DecimalPos.Unsigned.to_uint_nonnil. }
  split.
  - unfold NilZero.string_of_uint.
    destruct (N.to_uint (Z.to_N n)) eqn:E; [congruence|..];
      rewrite <- E; apply before_point_numeral.
  - rewrite NilZero.usu by exact NN. cbn [option_map].
    rewrite DecimalN.Unsigned.of_to. f_equal. lia.
Qed.

Lemma digit_value_char (d : Z) :
  (0 <= d <= 9)%Z -> digit_value (digit_char d) = Some d.
Proof.
  intros H. unfold digit_value, digit_char.
  rewrite nat_ascii_embedding by lia.
  replace (48 <=? 48 + Z.to_nat d)%nat with true
    by (symmetry; apply Nat.leb_le; lia).
  replace (48 + Z.to_nat d <=? 57)%nat with true
    by (symmetry; apply Nat.leb_le; lia).
  cbn [andb]. f_equal. lia.
Qed.

Lemma text_hundredths_fixed2 (q : Z) :
  (0 <= q)%Z -> text_hundredths (fixed2 q) = Some q.
Proof.
  intros H. unfold text_hundredths, fixed2.
  assert (Q : (0 <= q / 100)%Z) by (apply Z.div_pos; lia).
  destruct (string_of_Z_read
              (String (digit_char (q mod 100 / 10))
                 (String (digit_char (q mod 10)) EmptyString)) Q) as [B U].
  change (string_of_Z (q / 100) ++ "."
          ++ String (digit_char (q mod 100 / 10))
               (String (digit_char (q mod 10)) ""))
    with (string_of_Z (q / 100)
          ++ String "." (String (digit_char (q mod 100 / 10))
                           (String (digit_char (q mod 10)) ""))).
  rewrite B.
  destruct (NilZero.uint_of_string (string_of_Z (q / 100))) as [u|];
    [|discriminate].
  cbn [option_map] in U. inversion U as [U'].
  pose proof (Z.mod_pos_bound q 100 ltac:(lia)) as B100.
  pose proof (Z.mod_pos_bound q 10 ltac:(lia)) as B10.
  pose proof (Z.div_mod q 100 ltac:(lia)) as E100.
  pose proof (Z.div_mod (q mod 100) 10 ltac:(lia)) as E10.
  pose proof (Z.mod_pos_bound (q mod 100) 10 ltac:(lia)) as B1.
  assert (T : (0 <= q mod 100 / 10 <= 9)%Z).
  { split; [apply Z.div_pos; lia|].
    assert ((q mod 100 / 10 < 10)%Z) by (apply Z.div_lt_upper_bound; lia).
    lia. }
  rewrite (digit_value_char T), digit_value_char by lia.
  f_equal. rewrite U'.
  assert (M : (q mod 10 = (q mod 100) mod 10)%Z).
  { symmetry.
    apply Z.mod_unique with (q := (10 * (q / 100) + q mod 100 / 10)%Z); lia. }
  lia.
Qed.

(** X17: when the statistic selected for a cell is a number with the binary
    value [m * 2^e] (and the sign [s]), [display_cell] writes, flushed right
    in 10 characters, the sign and a text with two decimals that reads back
    as the number of hundredths nearest to that value: what is shown differs
    from the statistic by at most half a hundredth. *)
Theorem displayed_number_is_nearest :
  forall (d : DataSet) (stat : Stats) (z t out : string)
         (tr : float * float * float) (s : bool) (m : positive) (e : Z),
    statistics_for d z t = Return tr ->
    Prim2SF (select stat tr) = S754_finite s m e ->
    exists txt q,
      display_cell stat z t (mkWorld d out)
      = (mkWorld d (out ++ rjust 10 (sign_text s ++ txt)), Return tt)
      /\ text_hundredths txt = Some q
      /\ two_decimals txt
      /\ nearest_hundredths m e q.
Proof.
  intros d stat z t out tr s m e Hs Hx.
  exists (fixed2 (hundredths m e)), (hundredths m e).
  split; [|split; [|split]].
  - rewrite display_cell_run.
    + unfold cell_of. rewrite Hs. unfold render_cell, format_2f.
      now rewrite Hx.
    + intros N. rewrite statistics_for_eq, N in Hs. discriminate.
  - apply text_hundredths_fixed2, hundredths_nonneg.
  - apply fixed2_two_decimals.
  - apply hundredths_nearest.
Qed.

Lemma displayed_number_is_nearest_default :
  exists txt q,
    display_cell AVG "94040" "Morning" (mkWorld (loaded default_data) "")
    = (mkWorld (loaded default_data) ("" ++ rjust 10 (sign_text false ++ txt)),
       Return tt)
    /\ text_hundredths txt = Some q
    /\ two_decimals txt
    /\ nearest_hundredths 4503599627370496 (-51) q.
Proof.
  apply (@displayed_number_is_nearest (loaded default_data) AVG
           "94040" "Morning" "" (1.0%float, 2.0%float, 3.0%float)
           false 4503599627370496 (-51)%Z).
  - vm_compute. reflexivity.
  - vm_compute. reflexivity.
Defined.

(** The text of a cell read back on the sample data. *)
Example cell_text_read_back :
  format_2f 2.2%float = "2.20" /\ text_hundredths "2.20" = Some 220%Z
  /\ text_hundredths "0.12" = Some 12%Z /\ text_hundredths "12" = None.
Proof. repeat split; vm_compute; reflexivity. Qed.

(** ** Loading, then displaying *)

(** X18: after a load of at least one row the table has one row per zip
    code of the data, in the order of their first occurrence, and every row
    holds at least one number (sets being iterated without loss). *)
Theorem load_then_display_shows_every_zip :
  forall (set_iteration : list string -> list string) (w : world)
         (data_list : list reading) (stat : Stats),
    data_list <> [] ->
    (forall l x, In x l -> In x (set_iteration l)) ->
    snd ((load_file set_iteration data_list ;;; display_cross_table stat) w)
    = Return tt
    /\ stdout (fst ((load_file set_iteration data_list ;;;
                     display_cross_table stat) w))
       = stdout w ++ string_of_nat (List.length data_list) ++ " lines loaded"
         ++ nl
         ++ render_table
              (table_of (reloaded set_iteration (self w) data_list) stat)
    /\ map fst (rows (table_of (reloaded set_iteration (self w) data_list) stat))
       = distinct (map item0 data_list)
    /\ (forall z cells,
          In (z, cells)
             (rows (table_of (reloaded set_iteration (self w) data_list) stat)) ->
          exists x, In (Number x) cells).
Proof.
  intros si [d out] dl stat Hrows Hsi. unfold bind.
  rewrite load_file_run. fold (reloaded si d dl).
  rewrite display_cross_table_run. cbn [fst snd stdout self].
  assert (A : active_zips (reloaded si d dl) = distinct (map item0 dl)).
  { unfold active_zips, reloaded. cbn [_zips].
    generalize (distinct (map item0 dl)). intros l.
    induction l as [|k l IH]; simpl; [reflexivity | now rewrite IH]. }
  assert (K : NoDup (PyDict.keys (_zips (reloaded si d dl)))).
  { unfold reloaded, PyDict.keys. cbn [_zips]. rewrite map_map. cbn [fst].
    rewrite map_id. apply distinct_NoDup. }
  split; [reflexivity|]. split; [|split].
  - rewrite (filtered_keys_active _ K).
    destruct dl as [|r dl']; [congruence|].
    cbn [reloaded _data truthy]. unfold table_of. now rewrite !append_assoc.
  - unfold table_of, table_with_rows. rewrite A.
    cbn [rows]. rewrite map_map. cbn [fst]. apply map_id.
  - intros z cells H. unfold table_of, table_with_rows in H.
    cbn [rows] in H. apply in_map_iff in H.
    destruct H as [z' [E Iz]]. inversion E; subst z' cells. clear E.
    rewrite A in Iz. apply (proj1 (distinct_In _ _)) in Iz.
    apply (proj1 (in_map_iff _ _ _)) in Iz.
    destruct Iz as [[[z0 t0] c0] [E Ir]]. unfold item0 in E. simpl in E. subst z0.
    assert (C : exists x, cell_of (reloaded si d dl) stat z t0 = Number x).
    { unfold cell_of. rewrite statistics_for_eq. cbn [reloaded _data].
      apply matching_concentrations_In in Ir.
      destruct (matching_concentrations z t0 dl) as [|c cs]; [destruct Ir|].
      eexists. reflexivity. }
    destruct C as [x C]. exists x. rewrite <- C. apply in_map.
    cbn [reloaded _times]. apply Hsi.
    change t0 with (item1 (z, t0, c0)). now apply in_map.
Qed.

Lemma load_then_display_shows_every_zip_default :
  snd ((load_file distinct default_data ;;; display_cross_table MAX)
         (mkWorld (__init__ "") "")) = Return tt
  /\ stdout (fst ((load_file distinct default_data ;;;
                   display_cross_table MAX) (mkWorld (__init__ "") "")))
     = "" ++ string_of_nat (List.length default_data) ++ " lines loaded" ++ nl
       ++ render_table
            (table_of (reloaded distinct (__init__ "") default_data) MAX)
  /\ map fst (rows (table_of (reloaded distinct (__init__ "") default_data) MAX))
     = distinct (map item0 default_data)
  /\ (forall z cells,
        In (z, cells)
           (rows (table_of (reloaded distinct (__init__ "") default_data) MAX)) ->
        exists x, In (Number x) cells).
Proof.
  apply (@load_then_display_shows_every_zip distinct
           (mkWorld (__init__ "") "") default_data MAX).
  - discriminate.
  - intros l x. apply distinct_In.
Defined.

(** ** Everything switched off *)

Lemma filter_all_off (zs : PyDict.dict bool) :
  (forall k v, In (k, v) zs -> v = false) ->
  filter (fun kv => snd kv) zs = [].
Proof.
  induction zs as [|[k v] zs IH]; intros H; simpl; [reflexivity|].
  rewrite (H k v) by now left. apply IH.
  intros k' v' I. apply (H k' v'). now right.
Qed.

(** X19: when readings are loaded and every zip code is switched off,
    [display_cross_table] writes the heading line with the time labels and
    no row. *)
Theorem all_switched_off_shows_heading_only :
  forall (d : DataSet) (out : string) (stat : Stats) (rs : list reading),
    _data d = Some rs -> rs <> [] ->
    (forall k v, In (k, v) (_zips d) -> v = false) ->
    display_cross_table stat (mkWorld d out)
    = (mkWorld d
         (out ++ "     " ++ String.concat "" (map (rjust 10) (_times d)) ++ nl),
       Return tt).
Proof.
  intros d out stat rs Hd Hrs Hoff. rewrite display_cross_table_run, Hd.
  destruct rs as [|r rs']; [congruence|]. cbn [truthy].
  unfold filtered_keys. rewrite (filter_all_off _ Hoff).
  unfold render_table, table_with_rows. cbn [columns rows map PyDict.keys
    PyDict.from_items fold_left String.concat].
  now rewrite append_nil_r.
Qed.

Lemma all_switched_off_shows_heading_only_default :
  display_cross_table MIN
    (mkWorld (with_zips (loaded default_data)
                [("12345", false); ("94022", false); ("94040", false)]) "")
  = (mkWorld (with_zips (loaded default_data)
                [("12345", false); ("94022", false); ("94040", false)])
       ("" ++ "     "
        ++ String.concat ""
             (map (rjust 10)
                (_times (with_zips (loaded default_data)
                           [("12345", false); ("94022", false);
                            ("94040", false)])))
        ++ nl),
     Return tt).
Proof.
  apply (@all_switched_off_shows_heading_only
           (with_zips (loaded default_data)
              [("12345", false); ("94022", false); ("94040", false)])
           "" MIN default_data).
  - reflexivity.
  - discriminate.
  - intros k v I. simpl in I.
    destruct I as [E | [E | [E | []]]]; now inversion E.
Defined.
